(** * Build orders: allocation ledger and completion engine

    A shallow embedding of [InvenTree/build/models.py] (the Django models
    [Build] and [BuildItem]) and the properties of its lifecycle
    transactions.

    The database is a record of tables; a table with an [AutoField]
    primary key is a finite map from keys to rows.  A model method runs in
    a state-and-exception monad over a world made of the Python object
    [self] and the database: an exception keeps the object as it is at the
    raise, and [transaction.atomic] restores the database. *)

From stdpp Require Import base option list gmap fin_maps fin_sets strings pretty.
From Stdlib Require Import ZArith Lia.

Local Open Scope Z_scope.

(** ** Rows *)

(** Row of [stock.StockItem], as far as the build models read and write
    it: the fields given to [StockItem.objects.create] and [quantity]. *)
Module StockItem.
Record t : Type := mk {
  part : positive;
  location : option positive;
  quantity : Z;
  batch : string;
  notes : string
}.

Definition set_quantity (q : Z) (s : t) : t :=
  mk (part s) (location s) q (batch s) (notes s).
End StockItem.

(** Row of [part.BomItem]: the fields the build models read. *)
Module BomItem.
Record t : Type := mk {
  part : positive;
  sub_part : positive;
  quantity : Z
}.
End BomItem.

(** Build status codes (class attributes of [Build]). *)
Definition PENDING : Z := 10.
Definition ALLOCATED : Z := 20.
Definition CANCELLED : Z := 30.
Definition COMPLETE : Z := 40.

Module Build.
Record t : Type := mk {
  id : positive;
  part : positive;
  title : string;
  quantity : Z;
  status : Z;
  batch : option string;
  creation_date : string;
  completion_date : option string;
  completed_by : option positive;
  URL : string;
  notes : string
}.

Definition set_status (v : Z) (b : t) : t :=
  mk (id b) (part b) (title b) (quantity b) v (batch b)
     (creation_date b) (completion_date b) (completed_by b) (URL b) (notes b).

Definition set_creation_date (v : string) (b : t) : t :=
  mk (id b) (part b) (title b) (quantity b) (status b) (batch b)
     v (completion_date b) (completed_by b) (URL b) (notes b).

Definition set_completion_date (v : option string) (b : t) : t :=
  mk (id b) (part b) (title b) (quantity b) (status b) (batch b)
     (creation_date b) v (completed_by b) (URL b) (notes b).

Definition set_completed_by (v : option positive) (b : t) : t :=
  mk (id b) (part b) (title b) (quantity b) (status b) (batch b)
     (creation_date b) (completion_date b) v (URL b) (notes b).
End Build.

Module BuildItem.
Record t : Type := mk {
  build : positive;
  stock_item : positive;
  quantity : Z
}.
End BuildItem.

(** ** The database and the world *)

Record Store : Type := mkStore {
  builds : gmap positive Build.t;
  build_items : gmap positive BuildItem.t;
  stock : gmap positive StockItem.t;
  bom : list BomItem.t
}.

Definition set_builds (m : gmap positive Build.t) (s : Store) : Store :=
  mkStore m (build_items s) (stock s) (bom s).
Definition set_build_items (m : gmap positive BuildItem.t) (s : Store) : Store :=
  mkStore (builds s) m (stock s) (bom s).
Definition set_stock (m : gmap positive StockItem.t) (s : Store) : Store :=
  mkStore (builds s) (build_items s) m (bom s).

(** [self] is the [Build] object the method is called on; [db] the store. *)
Record World : Type := mkWorld {
  self : Build.t;
  db : Store
}.

Definition set_self (b : Build.t) (w : World) : World := mkWorld b (db w).
Definition set_db (s : Store) (w : World) : World := mkWorld (self w) s.

(** ** Exceptions and the monad *)

Inductive exn : Type :=
| DoesNotExist
| MultipleObjectsReturned
| IntegrityError
| InsufficientStock
| ValidationError (fields : list string).

Inductive outcome (A : Type) : Type :=
| Return (a : A) (w : World)
| Raise (e : exn) (w : World).
Arguments Return {A} a w.
Arguments Raise {A} e w.

Definition world_after {A} (o : outcome A) : World :=
  match o with Return _ w => w | Raise _ w => w end.

Definition M (A : Type) : Type := World → outcome A.

Definition ret {A} (a : A) : M A := λ w, Return a w.
Definition bind {A B} (m : M A) (k : A → M B) : M B :=
  λ w, match m w with
       | Return a w' => k a w'
       | Raise e w' => Raise e w'
       end.
Definition raise {A} (e : exn) : M A := λ w, Raise e w.

Notation "x <- m ;; k" := (bind m (λ x, k))
  (at level 100, m at next level, k at level 200, right associativity).
Notation "m ;;; k" := (bind m (λ _, k))
  (at level 100, k at level 200, right associativity).

Definition get_self : M Build.t := λ w, Return (self w) w.
Definition get_db : M Store := λ w, Return (db w) w.
Definition modify_self (f : Build.t → Build.t) : M unit :=
  λ w, Return tt (set_self (f (self w)) w).
Definition modify_db (f : Store → Store) : M unit :=
  λ w, Return tt (set_db (f (db w)) w).

(** [@transaction.atomic]: when the body raises, the database is rolled
    back to what it was on entry; the Python object is not. *)
Definition atomic {A} (m : M A) : M A :=
  λ w, match m w with
       | Return a w' => Return a w'
       | Raise e w' => Raise e (set_db (db w) w')
       end.

(** [for x in l: body(x)] *)
Fixpoint for_each {A} (l : list A) (body : A → M unit) : M unit :=
  match l with
  | [] => ret tt
  | x :: l' => body x ;;; for_each l' body
  end.

(** ** Querysets *)

(** A queryset is evaluated to the list of its objects, each one its key
    and its row. *)
Definition objects_all {A} (m : gmap positive A) : list (positive * A) :=
  map_to_list m.

(** [Sum('quantity')] over a list of quantities. *)
Definition sum_list_Z (l : list Z) : Z := foldr Z.add 0 l.

(** [StockItem.objects.filter(part=p)] *)
Definition stock_filter_part (p : positive) (s : Store)
  : list (positive * StockItem.t) :=
  filter (λ ks, StockItem.part ks.2 = p) (objects_all (stock s)).

(** [self.allocated_stock.all()]: the [BuildItem] rows whose [build] is
    this build ([related_name='allocated_stock']). *)
Definition allocated_stock (b : Build.t) (s : Store)
  : list (positive * BuildItem.t) :=
  filter (λ ki, BuildItem.build ki.2 = Build.id b) (objects_all (build_items s)).

(** [BuildItem.objects.filter(build=self, stock_item=stock_item)] *)
Definition build_items_filter (b : Build.t) (sk : positive) (s : Store)
  : list (positive * BuildItem.t) :=
  filter (λ ki, BuildItem.build ki.2 = Build.id b ∧ BuildItem.stock_item ki.2 = sk)
         (objects_all (build_items s)).

(** [self.part.bom_items.all()]: the BOM lines of the target part. *)
Definition bom_items (b : Build.t) (s : Store) : list BomItem.t :=
  filter (λ l, BomItem.part l = Build.part b) (bom s).

(** ** Collaborators

    [Part.name] and [StockItem.take_stock] live in [part/models.py] and
    [stock/models.py].  The build models only call them, so they are an
    interface here: [take_stock] either raises or leaves the stock item in
    a new state, which it saves. *)
Class Collaborators : Type := {
  part_name : positive → string;
  take_stock : StockItem.t → Z → positive → string → exn + StockItem.t
}.

(** Modelled from the spec: [StockItem.take_stock], the stock item's
    consuming operation of the external interfaces: it fails with
    InsufficientStock when the quantity asked for exceeds the available
    quantity, and otherwise reduces the quantity by that amount. *)
Definition spec_take_stock (st : StockItem.t) (q : Z) (user : positive)
    (notes : string) : exn + StockItem.t :=
  if bool_decide (q > StockItem.quantity st)
  then inl InsufficientStock
  else inr (StockItem.set_quantity (StockItem.quantity st - q) st).

(** Modelled from the spec: [Part.total_stock], the sub-part's total
    stock quantity across all its stock items. *)
Definition total_stock (p : positive) (s : Store) : Z :=
  sum_list_Z ((λ ks, StockItem.quantity ks.2) <$> stock_filter_part p s).


(** ** Store operations of the models *)

(** [item.stock_item]: the related object is loaded when it is read. *)
Definition related_stock_item (item : BuildItem.t) : M StockItem.t :=
  λ w, match stock (db w) !! BuildItem.stock_item item with
       | Some st => Return st w
       | None => Raise DoesNotExist w
       end.

(** [item.delete()] on a [BuildItem] with key [k]. *)
Definition build_item_delete (k : positive) : M unit :=
  modify_db (λ s, set_build_items (delete k (build_items s)) s).

(** [BuildItem(...).save()] of a new object: an insert under a key that
    no row has (the sequence of the database is not part of the store,
    and nothing below depends on which key it is).  The insert is refused
    by the column check of [quantity], a [PositiveIntegerField]
    (quantity >= 0), and by
    [unique_together = [('build', 'stock_item')]].  [save] does not call
    [clean] nor the validators. *)
Definition build_item_save (item : BuildItem.t) : M unit :=
  λ w,
    let rows := build_items (db w) in
    if bool_decide (BuildItem.quantity item < 0) then Raise IntegrityError w
    else
      match filter (λ ki, BuildItem.build ki.2 = BuildItem.build item
                          ∧ BuildItem.stock_item ki.2 = BuildItem.stock_item item)
                   (objects_all rows) with
      | [] => Return tt (set_db (set_build_items (<[fresh (dom rows) := item]> rows) (db w)) w)
      | _ :: _ => Raise IntegrityError w
      end.

(** [StockItem.objects.create(...)]: returns the key of the new row. *)
Definition stock_item_create (row : StockItem.t) : M positive :=
  λ w,
    let k := fresh (dom (stock (db w))) in
    Return k (set_db (set_stock (<[k := row]> (stock (db w))) (db w)) w).

(** [item.save()] on a stock item that has a key. *)
Definition stock_item_save (k : positive) (row : StockItem.t) : M unit :=
  modify_db (λ s, set_stock (<[k := row]> (stock s)) s).

(** [self.save()]: [creation_date] has [auto_now=True], so every save
    sets it; the row of the build is then written. *)
Definition save (now : string) : M unit :=
  λ w,
    let b := Build.set_creation_date now (self w) in
    Return tt (mkWorld b (set_builds (<[Build.id b := b]> (builds (db w))) (db w))).

(** ** [Build] *)

(** A proposed allocation: the dict with keys ['stock_item'] (the loaded
    object: key and row) and ['quantity']. *)
Module Allocation.
Record t : Type := mk {
  stock_item : positive * StockItem.t;
  quantity : Z
}.
End Allocation.

(** One entry of [required_parts]. *)
Module RequiredPart.
Record t : Type := mk {
  part : positive;
  per_build : Z;
  quantity : Z;
  allocated : Z
}.
End RequiredPart.

Section BuildModel.
Context `{!Collaborators}.

(** The body of the loop of [completeBuild], for the record [ki]. *)
Definition complete_item (user : positive) (ki : positive * BuildItem.t) : M unit :=
  b <- get_self ;;
  st <- related_stock_item ki.2 ;;
  (λ w,
     match take_stock st (BuildItem.quantity ki.2) user
             ("Removed " +:+ pretty (BuildItem.quantity ki.2)
              +:+ " items to build " +:+ pretty (Build.quantity b)
              +:+ " x " +:+ part_name (Build.part b)) with
     | inl e => Raise e w
     | inr st' =>
         Return tt (set_db (set_stock (<[BuildItem.stock_item ki.2 := st']>
                                        (stock (db w))) (db w)) w)
     end) ;;;
  build_item_delete ki.1.

(** The stock item [completeBuild] creates. *)
Definition built_item (b : Build.t) (location : option positive) (now : string)
  : StockItem.t :=
  StockItem.mk (Build.part b) location (Build.quantity b)
    (match Build.batch b with
     | Some s => if bool_decide (s = EmptyString) then EmptyString else s
     | None => EmptyString
     end)
    ("Built " +:+ pretty (Build.quantity b) +:+ " on " +:+ now).

Definition completeBuild (location : option positive) (user : positive)
    (now : string) : M unit :=
  atomic (
    b <- get_self ;;
    s <- get_db ;;
    for_each (allocated_stock b s) (complete_item user) ;;;
    modify_self (Build.set_completion_date (Some now)) ;;;
    modify_self (Build.set_completed_by (Some user)) ;;;
    b <- get_self ;;
    k <- stock_item_create (built_item b location now) ;;
    stock_item_save k (built_item b location now) ;;;
    modify_self (Build.set_status COMPLETE) ;;;
    save now).

Definition cancelBuild (user : positive) (now : string) : M unit :=
  atomic (
    b <- get_self ;;
    s <- get_db ;;
    for_each (allocated_stock b s) (λ ki, build_item_delete ki.1) ;;;
    modify_self (Build.set_completion_date (Some now)) ;;;
    modify_self (Build.set_completed_by (Some user)) ;;;
    modify_self (Build.set_status CANCELLED) ;;;
    save now).

(** [BuildItem.objects.filter(build=self.id).delete()] *)
Definition unallocateStock : M unit :=
  atomic (
    b <- get_self ;;
    modify_db (λ s, set_build_items
                      (filter (λ ki, BuildItem.build ki.2 ≠ Build.id b) (build_items s)) s)).

(** One turn of the loop of [getAutoAllocations]: what the BOM line
    [item] appends to [allocations], if anything. *)
Definition auto_allocation (b : Build.t) (s : Store) (item : BomItem.t)
  : option Allocation.t :=
  let q_required := BomItem.quantity item * Build.quantity b in
  match stock_filter_part (BomItem.sub_part item) s with
  | [stock_item] =>
      if bool_decide (0 < length (build_items_filter b stock_item.1 s))%nat
      then None
      else if bool_decide (StockItem.quantity stock_item.2 > 0)
      then Some (Allocation.mk stock_item
                   (if bool_decide (StockItem.quantity stock_item.2 < q_required)
                    then StockItem.quantity stock_item.2
                    else q_required))
      else None
  | _ => None
  end.

Definition getAutoAllocations (b : Build.t) (s : Store) : list Allocation.t :=
  omap (auto_allocation b s) (bom_items b s).

(** The loop of [autoAllocate]: one [BuildItem] saved per allocation. *)
Definition apply_allocations (b : Build.t) (allocations : list Allocation.t) : M unit :=
  for_each allocations
    (λ a, build_item_save
            (BuildItem.mk (Build.id b) (Allocation.stock_item a).1 (Allocation.quantity a))).

Definition autoAllocate : M unit :=
  atomic (
    b <- get_self ;;
    s <- get_db ;;
    apply_allocations b (getAutoAllocations b s)).

(** [BomItem.objects.get(part=..., sub_part=...)] *)
Definition BomItem_get (p sub : positive) (s : Store) : exn + BomItem.t :=
  match filter (λ l, BomItem.part l = p ∧ BomItem.sub_part l = sub) (bom s) with
  | [] => inl DoesNotExist
  | [item] => inr item
  | _ => inl MultipleObjectsReturned
  end.

(** Only [BomItem.DoesNotExist] is caught. *)
Definition getRequiredQuantity (b : Build.t) (p : positive) (s : Store) : exn + Z :=
  match BomItem_get (Build.part b) p s with
  | inr item => inr (BomItem.quantity item * Build.quantity b)
  | inl DoesNotExist => inr 0
  | inl e => inl e
  end.

(** The rows of
    [BuildItem.objects.filter(build=self.id, stock_item__part=part.id)]:
    the join keeps a record when its stock item has the part. *)
Definition allocated_to_part (b : Build.t) (p : positive) (s : Store)
  : list (positive * BuildItem.t) :=
  filter (λ ki, StockItem.part <$> stock s !! BuildItem.stock_item ki.2 = Some p)
         (allocated_stock b s).

Definition getAllocatedQuantity (b : Build.t) (p : positive) (s : Store) : Z :=
  let q :=
    match allocated_to_part b p s with
    | [] => None
    | l => Some (sum_list_Z ((λ ki, BuildItem.quantity ki.2) <$> l))
    end in
  match q with
  | Some q => if bool_decide (q = 0) then 0 else q
  | None => 0
  end.

Definition getUnallocatedQuantity (b : Build.t) (p : positive) (s : Store) : exn + Z :=
  match getRequiredQuantity b p s with
  | inr r => inr (Z.max (r - getAllocatedQuantity b p s) 0)
  | inl e => inl e
  end.

Definition required_parts (b : Build.t) (s : Store) : list RequiredPart.t :=
  (λ item, RequiredPart.mk (BomItem.sub_part item) (BomItem.quantity item)
             (BomItem.quantity item * Build.quantity b)
             (getAllocatedQuantity b (BomItem.sub_part item) s))
  <$> bom_items b s.

Fixpoint can_build_loop (s : Store) (l : list RequiredPart.t) : bool :=
  match l with
  | [] => true
  | item :: l' =>
      if bool_decide (total_stock (RequiredPart.part item) s < RequiredPart.quantity item)
      then false
      else can_build_loop s l'
  end.

Definition can_build (b : Build.t) (s : Store) : bool :=
  can_build_loop s (required_parts b s).

Definition is_active (b : Build.t) : bool :=
  bool_decide (Build.status b ∈ [PENDING]).

Definition is_complete (b : Build.t) : bool :=
  bool_decide (Build.status b = COMPLETE).

End BuildModel.

(** The collaborators as the specification describes them; what a part
    is called plays no part in any of the properties. *)
Definition spec_collaborators : Collaborators :=
  {| part_name := λ p, "part " +:+ pretty p;
     take_stock := spec_take_stock |}.

(** The operations of the core that change anything. *)
Inductive operation : Type :=
| Cancel (user : positive) (now : string)
| Complete (location : option positive) (user : positive) (now : string)
| Unallocate
| AutoAllocate.

Definition run `{!Collaborators} (op : operation) : M unit :=
  match op with
  | Cancel user now => cancelBuild user now
  | Complete location user now => completeBuild location user now
  | Unallocate => unallocateStock
  | AutoAllocate => autoAllocate
  end.


(** Sum of the quantities of a stock table. *)
Definition stock_total (m : gmap positive StockItem.t) : Z :=
  sum_list_Z ((λ ks, StockItem.quantity ks.2) <$> map_to_list m).

(** What this build has allocated on the stock item [sk]. *)
Definition allocated_on (b : Build.t) (sk : positive) (s : Store) : Z :=
  sum_list_Z ((λ ki, BuildItem.quantity ki.2) <$> build_items_filter b sk s).

(** The ledger without the records of build [b]. *)
Definition without_build (b : Build.t) (m : gmap positive BuildItem.t)
  : gmap positive BuildItem.t :=
  filter (λ ki, BuildItem.build ki.2 ≠ Build.id b) m.

(** Worlds with the same Python object. *)
Definition same_self : relation World := λ w w', self w' = self w.

(** What [completeBuild] does once its loop has returned in [w1]. *)
Definition completed (location : option positive) (user : positive)
    (now : string) (w1 : World) : World :=
  let b := Build.set_completed_by (Some user)
             (Build.set_completion_date (Some now) (self w1)) in
  let k := fresh (dom (stock (db w1))) in
  let b' := Build.set_creation_date now (Build.set_status COMPLETE b) in
  mkWorld b'
    (set_builds (<[Build.id b' := b']> (builds (db w1)))
       (set_stock (<[k := built_item b location now]> (stock (db w1))) (db w1))).

(** What the records of the list [l] ask of the stock item [sk]. *)
Definition alloc_sum (l : list (positive * BuildItem.t)) (sk : positive) : Z :=
  sum_list_Z ((λ ki, BuildItem.quantity ki.2)
                <$> filter (λ ki, BuildItem.stock_item ki.2 = sk) l).

(** The stock item [st] after [q] units have been taken from it. *)
Definition consumed (q : Z) (st : StockItem.t) : StockItem.t :=
  StockItem.set_quantity (StockItem.quantity st - q) st.

(** What [cancelBuild] leaves of the world [w]. *)
Definition cancelled (user : positive) (now : string) (w : World) : World :=
  let b := Build.set_creation_date now
             (Build.set_status CANCELLED
                (Build.set_completed_by (Some user)
                   (Build.set_completion_date (Some now) (self w)))) in
  mkWorld b
    (set_builds (<[Build.id b := b]> (builds (db w)))
       (set_build_items (without_build (self w) (build_items (db w))) (db w))).

(** A history: operations called one after the other on the same object,
    each from the world the one before left, whether it returned or
    raised. *)
Definition run_ops `{!Collaborators} (ops : list operation) (w : World) : World :=
  foldl (λ w op, world_after (run op w)) w ops.

(** The operations that write the completion fields. *)
Definition is_transition (op : operation) : Prop :=
  match op with
  | Cancel _ _ | Complete _ _ _ => True
  | Unallocate | AutoAllocate => False
  end.

Definition terminal (b : Build.t) : Prop :=
  Build.status b = CANCELLED ∨ Build.status b = COMPLETE.

(** Both completion fields unset, or both set. *)
Definition set_together (b : Build.t) : Prop :=
  Build.completion_date b = None ↔ Build.completed_by b = None.

(** ** Example worlds *)

(** A stock item of part 2 that holds seven units. *)
Definition seven_units : StockItem.t :=
  StockItem.mk 2 None 7 EmptyString EmptyString.

(** A pending build of five units whose only record asks nine of a stock
    item that holds seven. *)
Definition short_build : Build.t :=
  Build.mk 1 1 "widgets" 5 PENDING None "2019-05-01" None None EmptyString EmptyString.

Definition short_world : World :=
  mkWorld short_build
    (mkStore {[1%positive := short_build]}
             {[1%positive := BuildItem.mk 1 1 9]}
             {[1%positive := seven_units]}
             [BomItem.mk 1 2 2]).

(** The same build with seven units of its single stock item allocated. *)
Definition ready_world : World :=
  mkWorld short_build
    (mkStore {[1%positive := short_build]}
             {[1%positive := BuildItem.mk 1 1 7]}
             {[1%positive := seven_units]}
             [BomItem.mk 1 2 2]).

(** The same build with nothing allocated. *)
Definition fresh_world : World :=
  mkWorld short_build
    (mkStore {[1%positive := short_build]}
             ∅
             {[1%positive := seven_units]}
             [BomItem.mk 1 2 2]).

(** [ready_world] after the build has been completed into location 4 by
    user 3. *)
Definition ready_world_completed : World :=
  world_after (completeBuild (H := spec_collaborators)
                 (Some 4%positive) 3 "2019-05-02" ready_world).

(** A build of a part that has no BOM line. *)
Definition bare_build : Build.t :=
  Build.mk 2 9 "brackets" 1 PENDING None "2019-05-01" None None EmptyString EmptyString.

(** [fresh_world] with the BOM line of sub-part 2 entered twice. *)
Definition twice_world : World :=
  mkWorld short_build
    (mkStore {[1%positive := short_build]}
             ∅
             {[1%positive := seven_units]}
             [BomItem.mk 1 2 2; BomItem.mk 1 2 3]).

(** [fresh_world] with a second stock item of sub-part 2. *)
Definition two_sources_world : World :=
  mkWorld short_build
    (mkStore {[1%positive := short_build]}
             ∅
             {[1%positive := seven_units;
               2%positive := StockItem.mk 2 None 20 EmptyString EmptyString]}
             [BomItem.mk 1 2 2]).

(** ** The rest of the models *)

(** [BUILD_STATUS_CODES]: the dict of the status codes and their labels,
    in the order it is written ([_] is the translation of the label). *)
Definition BUILD_STATUS_CODES : list (Z * string) :=
  [(PENDING, "Pending"); (ALLOCATED, "Allocated");
   (CANCELLED, "Cancelled"); (COMPLETE, "Complete")].

(** [BuildItem.get_absolute_url], for the object with key [pk]. *)
Definition BuildItem_get_absolute_url (pk : positive) : string :=
  "/build/item/" +:+ pretty pk +:+ "/".

(** What [unallocateStock] leaves of the world [w]. *)
Definition unallocated (w : World) : World :=
  set_db (set_build_items (without_build (self w) (build_items (db w))) (db w)) w.

(** The key of the stock item of a proposal. *)
Definition allocation_key (a : Allocation.t) : positive :=
  (Allocation.stock_item a).1.

(** A second build of the same part, and a world in which the first
    build has already taken the seven units. *)
Definition second_build : Build.t :=
  Build.mk 2 1 "more widgets" 3 PENDING None "2019-05-03" None None
    EmptyString EmptyString.

Definition shared_store : Store :=
  mkStore {[1%positive := short_build; 2%positive := second_build]}
          {[1%positive := BuildItem.mk 1 1 7]}
          {[1%positive := seven_units]}
          [BomItem.mk 1 2 2].

(** Worlds whose build object describes the same order: every field but
    the status, the dates and completed-by, and the same BOM. *)
Definition same_order : relation World := λ w w',
  Build.id (self w') = Build.id (self w)
  ∧ Build.part (self w') = Build.part (self w)
  ∧ Build.title (self w') = Build.title (self w)
  ∧ Build.quantity (self w') = Build.quantity (self w)
  ∧ Build.batch (self w') = Build.batch (self w)
  ∧ Build.URL (self w') = Build.URL (self w)
  ∧ Build.notes (self w') = Build.notes (self w)
  ∧ bom (db w') = bom (db w).

(** The operations that write the stock table. *)
Definition is_complete_op (op : operation) : Prop :=
  match op with
  | Complete _ _ _ => True
  | Cancel _ _ | Unallocate | AutoAllocate => False
  end.

(** The stock items the records of the list [l] are on. *)
Definition stock_keys (l : list (positive * BuildItem.t)) : list positive :=
  (λ ki, BuildItem.stock_item ki.2) <$> l.


(** [ready_world] with a second stock item of sub-part 2, which the
    build has no record on, and that world after the build has been
    completed. *)
Definition spare_world : World :=
  mkWorld short_build
    (mkStore {[1%positive := short_build]}
             {[1%positive := BuildItem.mk 1 1 7]}
             {[1%positive := seven_units;
               2%positive := StockItem.mk 2 None 20 EmptyString EmptyString]}
             [BomItem.mk 1 2 2]).

Definition spare_world_completed : World :=
  world_after (completeBuild (H := spec_collaborators)
                 (Some 4%positive) 3 "2019-05-02" spare_world).

(** * Properties *)

(** ** Scenarios *)

(** Two units of sub-part 2 per unit, five units to build, one stock item
    holding seven: seven are proposed, and three stay unallocated once
    they are applied. *)
Example scenario_capped :
  Allocation.quantity <$> getAutoAllocations short_build (db fresh_world) = [7]
  ∧ autoAllocate fresh_world = Return tt ready_world
  ∧ getRequiredQuantity short_build 2 (db ready_world) = inr 10
  ∧ getUnallocatedQuantity short_build 2 (db ready_world) = inr 3.
Proof. split_and!; reflexivity. Qed.

(** The BOM line entered twice: the second record of the batch breaks
    the uniqueness of (build, stock item) and nothing is persisted. *)
Example scenario_duplicate_lines :
  length (getAutoAllocations short_build (db twice_world)) = 2%nat
  ∧ autoAllocate twice_world = Raise IntegrityError twice_world.
Proof. split; reflexivity. Qed.

(** A part without BOM lines can always be built. *)
Example scenario_no_bom_line : can_build bare_build (db fresh_world) = true.
Proof. reflexivity. Qed.

(** Two stock items of the sub-part: nothing is proposed. *)
Example scenario_two_sources :
  getAutoAllocations short_build (db two_sources_world) = [].
Proof. reflexivity. Qed.

(** The total stock of the sub-part covers the requirement of ten whether
    or not it is allocated. *)
Example scenario_can_build :
  can_build short_build (db fresh_world) = false
  ∧ can_build short_build (db two_sources_world) = true.
Proof. split; reflexivity. Qed.

(** ** The monad and loops *)

Lemma bind_Return {A B} (m : M A) (k : A → M B) w a w' :
  m w = Return a w' → (x <- m ;; k x) w = k a w'.
Proof. intros Hm. unfold bind. by rewrite Hm. Qed.

Lemma bind_Raise {A B} (m : M A) (k : A → M B) w e w' :
  m w = Raise e w' → (x <- m ;; k x) w = Raise e w'.
Proof. intros Hm. unfold bind. by rewrite Hm. Qed.

Lemma for_each_cons {A} (x : A) l (body : A → M unit) w :
  for_each (x :: l) body w =
  match body x w with
  | Return _ w' => for_each l body w'
  | Raise e w' => Raise e w'
  end.
Proof. reflexivity. Qed.

(** A relation between worlds that every turn of a loop keeps is kept
    by the loop, whether it returns or raises. *)
Lemma for_each_preserves {A} (R : relation World) `{!PreOrder R}
    (body : A → M unit) (l : list A) :
  (∀ x w, R w (world_after (body x w))) →
  ∀ w, R w (world_after (for_each l body w)).
Proof.
  intros Hbody. induction l as [|x l IH]; intros w; [done|].
  rewrite for_each_cons. specialize (Hbody x w).
  destruct (body x w) as [[] w1|e w1]; simpl in *; [|done].
  by etrans; [|apply IH].
Qed.

#[local] Instance same_self_preorder : PreOrder same_self.
Proof. split; [done|]. intros w1 w2 w3; unfold same_self; congruence. Qed.

Lemma world_eta w : mkWorld (self w) (db w) = w.
Proof. by destruct w. Qed.

Section Lifecycle.
Context `{!Collaborators}.

Lemma complete_item_self user ki w :
  same_self w (world_after (complete_item user ki w)).
Proof.
  unfold complete_item, bind, get_self, related_stock_item, same_self.
  destruct (stock (db w) !! BuildItem.stock_item ki.2); [|done].
  by destruct (take_stock _ _ _ _).
Qed.

Lemma complete_loop_self user l w :
  self (world_after (for_each l (complete_item user) w)) = self w.
Proof.
  apply (for_each_preserves same_self); intros; apply complete_item_self.
Qed.

Lemma completeBuild_unfold location user now w :
  completeBuild location user now w =
  match for_each (allocated_stock (self w) (db w)) (complete_item user) w with
  | Return _ w1 => Return tt (completed location user now w1)
  | Raise e w1 => Raise e (set_db (db w) w1)
  end.
Proof.
  unfold completeBuild, atomic, bind at 1 2 3, get_self, get_db.
  destruct (for_each _ _ w) as [[] w1|e w1]; [|done].
  unfold bind, modify_self, stock_item_create, stock_item_save, modify_db,
    save, get_self, completed; simpl.
  by rewrite insert_insert_eq.
Qed.

Lemma delete_loop l w :
  for_each l (λ ki : positive * BuildItem.t, build_item_delete ki.1) w =
  Return tt (set_db (set_build_items
                       (foldl (λ m ki, delete ki.1 m) (build_items (db w)) l)
                       (db w)) w).
Proof.
  revert w. induction l as [|ki l IH]; intros w.
  - simpl. unfold ret, set_db, set_build_items. by destruct w as [b []].
  - rewrite for_each_cons. unfold build_item_delete at 1, modify_db.
    rewrite IH. by destruct w as [b []].
Qed.

End Lifecycle.

(** ** Querysets over tables *)

Lemma filter_nil_Forall {A} (P : A → Prop) `{!∀ x, Decision (P x)} (l : list A) :
  filter P l = [] ↔ ∀ x, x ∈ l → ¬ P x.
Proof.
  split.
  - intros Hnil x Hx HP. by eapply filter_nil_not_elem_of.
  - intros Hall. destruct (filter P l) as [|x l'] eqn:Hf; [done|].
    assert (x ∈ filter P l) as Hx by (rewrite Hf; left).
    apply list_elem_of_filter in Hx as [HP Hx]. by destruct (Hall x Hx).
Qed.

Lemma elem_of_allocated_stock b s k i :
  (k, i) ∈ allocated_stock b s ↔
  build_items s !! k = Some i ∧ BuildItem.build i = Build.id b.
Proof.
  unfold allocated_stock, objects_all.
  rewrite list_elem_of_filter, elem_of_map_to_list. simpl. tauto.
Qed.

Lemma elem_of_build_items_filter b sk s k i :
  (k, i) ∈ build_items_filter b sk s ↔
  build_items s !! k = Some i ∧ BuildItem.build i = Build.id b
  ∧ BuildItem.stock_item i = sk.
Proof.
  unfold build_items_filter, objects_all.
  rewrite list_elem_of_filter, elem_of_map_to_list. simpl. tauto.
Qed.

Lemma elem_of_stock_filter_part p s k st :
  (k, st) ∈ stock_filter_part p s ↔ stock s !! k = Some st ∧ StockItem.part st = p.
Proof.
  unfold stock_filter_part, objects_all.
  rewrite list_elem_of_filter, elem_of_map_to_list. simpl. tauto.
Qed.

Lemma lookup_foldl_delete {A} (l : list (positive * A)) (m : gmap positive A) k :
  foldl (λ m ki, delete ki.1 m) m l !! k =
  if decide (k ∈ l.*1) then None else m !! k.
Proof.
  revert m. induction l as [|[k' x] l IH]; intros m; [done|].
  cbn [foldl]. rewrite IH, fmap_cons. cbn [fst].
  - destruct (decide (k ∈ l.*1)) as [Hin|Hout].
    + rewrite decide_True; [done|by right].
    + destruct (decide (k = k')) as [->|Hne].
      * rewrite decide_True by left. apply lookup_delete_eq.
      * rewrite decide_False; [by apply lookup_delete_ne|].
        rewrite elem_of_cons. by intros [?|?].
Qed.

(** Deleting the records of a build one by one leaves the ledger without
    the records of the build. *)
Lemma delete_allocated_stock b s :
  foldl (λ m ki, delete ki.1 m) (build_items s) (allocated_stock b s)
  = without_build b (build_items s).
Proof.
  apply map_eq; intros k. rewrite lookup_foldl_delete. unfold without_build.
  destruct (build_items s !! k) as [i|] eqn:Hk.
  - destruct (decide (BuildItem.build i = Build.id b)) as [Hb|Hb].
    + rewrite decide_True.
      * symmetry. apply map_lookup_filter_None. right. intros i' Hi'. simpl.
        rewrite Hk in Hi'. injection Hi' as <-. tauto.
      * apply list_elem_of_fmap. exists (k, i). split; [done|].
        by apply elem_of_allocated_stock.
    + rewrite decide_False.
      * symmetry. by apply map_lookup_filter_Some.
      * intros Hin. apply list_elem_of_fmap in Hin as [[k' i'] [-> Hin]].
        apply elem_of_allocated_stock in Hin as [Hk' Hb']. simpl in *. congruence.
  - rewrite (proj2 (map_lookup_filter_None _ _ k)) by (by left).
    by destruct (decide _).
Qed.

Lemma allocated_stock_without_build b s m :
  build_items s = without_build b m → allocated_stock b s = [].
Proof.
  intros Hm. apply filter_nil_Forall. intros [k i] Hin Hb. simpl in Hb.
  apply elem_of_map_to_list in Hin. rewrite Hm in Hin.
  apply map_lookup_filter_Some in Hin as [_ Hne]. by apply Hne.
Qed.

(** ** Cancel *)

Lemma cancelBuild_unfold user now w :
  cancelBuild user now w = Return tt (cancelled user now w).
Proof.
  unfold cancelBuild, atomic, bind at 1 2 3, get_self, get_db.
  by rewrite delete_loop, delete_allocated_stock.
Qed.

(** C7: the Cancel transaction always commits; it deletes every
    allocation record of the build and no other, sets the completion date
    and completed-by, sets the status to CANCELLED and saves the build,
    and leaves the stock table, so every stock item's quantity, as it
    was. *)
Theorem cancelBuild_effect user now w :
  ∃ w', cancelBuild user now w = Return tt w'
        ∧ build_items (db w') = without_build (self w) (build_items (db w))
        ∧ (∀ k i, build_items (db w') !! k = Some i →
                  BuildItem.build i ≠ Build.id (self w))
        ∧ allocated_stock (self w') (db w') = []
        ∧ stock (db w') = stock (db w)
        ∧ Build.completion_date (self w') = Some now
        ∧ Build.completed_by (self w') = Some user
        ∧ Build.status (self w') = CANCELLED
        ∧ builds (db w') !! Build.id (self w) = Some (self w').
Proof.
  exists (cancelled user now w). split; [apply cancelBuild_unfold|]. simpl.
  split_and!; try done.
  - intros k i Hk. by apply map_lookup_filter_Some in Hk as [_ Hne].
  - by eapply allocated_stock_without_build.
  - apply lookup_insert_eq.
Qed.

(** ** Complete: abort *)

Lemma for_each_app {A} (l1 l2 : list A) (body : A → M unit) w :
  for_each (l1 ++ l2) body w =
  match for_each l1 body w with
  | Return _ w1 => for_each l2 body w1
  | Raise e w1 => Raise e w1
  end.
Proof.
  revert w. induction l1 as [|x l1 IH]; intros w; [done|].
  rewrite <- app_comm_cons, !for_each_cons.
  destruct (body x w) as [[] w1|e w1]; [apply IH|done].
Qed.

(** Whatever raises inside [completeBuild], the world is left as it was. *)
Lemma completeBuild_Raise_inv `{!Collaborators} location user now w e w' :
  completeBuild location user now w = Raise e w' → w' = w.
Proof.
  rewrite completeBuild_unfold.
  pose proof (complete_loop_self user (allocated_stock (self w) (db w)) w) as Hself.
  destruct (for_each _ _ w) as [[] w1|e1 w1]; [done|].
  intros [= _ <-]. simpl in Hself. unfold set_db. rewrite Hself. apply world_eta.
Qed.

(** C1: when the stock-consuming step raises for one allocation record
    of the build (the records before it having been consumed and deleted),
    the Complete transaction raises the same exception and leaves the
    world as it was: the ledger, the stock table and the build table are
    unchanged (no record deleted, no stock item created, no quantity
    changed) and the build object is unchanged, so its completion date and
    completed-by are still unset and its status still PENDING if they were. *)
Theorem completeBuild_aborts_whole `{!Collaborators}
    location user now w l1 ki l2 w1 e w2 :
  allocated_stock (self w) (db w) = l1 ++ ki :: l2 →
  for_each l1 (complete_item user) w = Return tt w1 →
  complete_item user ki w1 = Raise e w2 →
  ∃ w', completeBuild location user now w = Raise e w'
        ∧ w' = w
        ∧ build_items (db w') = build_items (db w)
        ∧ stock (db w') = stock (db w)
        ∧ builds (db w') = builds (db w)
        ∧ Build.completion_date (self w') = Build.completion_date (self w)
        ∧ Build.completed_by (self w') = Build.completed_by (self w)
        ∧ Build.status (self w') = Build.status (self w).
Proof.
  intros Hitems Hbefore Hraise.
  assert (∃ w', completeBuild location user now w = Raise e w') as [w' Hc].
  { rewrite completeBuild_unfold, Hitems, for_each_app, Hbefore, for_each_cons, Hraise.
    by eexists. }
  exists w'. split; [done|].
  apply completeBuild_Raise_inv in Hc as Hw. by subst w'.
Qed.

Lemma completeBuild_aborts_whole_witness :
  allocated_stock (self short_world) (db short_world)
    = [] ++ (1%positive, BuildItem.mk 1 1 9) :: []
  ∧ ∃ w', completeBuild (H := spec_collaborators) None 3 "2019-05-02" short_world
            = Raise InsufficientStock w'
          ∧ w' = short_world
          ∧ build_items (db w') = build_items (db short_world)
          ∧ stock (db w') = stock (db short_world)
          ∧ builds (db w') = builds (db short_world)
          ∧ Build.completion_date (self w') = Build.completion_date (self short_world)
          ∧ Build.completed_by (self w') = Build.completed_by (self short_world)
          ∧ Build.status (self w') = Build.status (self short_world).
Proof.
  split; [reflexivity|].
  apply (completeBuild_aborts_whole (H := spec_collaborators)
           None 3%positive "2019-05-02" short_world
           [] (1%positive, BuildItem.mk 1 1 9) [] short_world
           InsufficientStock short_world); reflexivity.
Defined.

(** ** Complete: no allocation *)

Lemma fresh_stock_key (m : gmap positive StockItem.t) : m !! fresh (dom m) = None.
Proof. apply not_elem_of_dom, is_fresh. Qed.



(** ** Complete: commit *)

Lemma sum_list_Z_cons x l : sum_list_Z (x :: l) = x + sum_list_Z l.
Proof. reflexivity. Qed.

Lemma sum_list_Z_perm (l1 l2 : list Z) : l1 ≡ₚ l2 → sum_list_Z l1 = sum_list_Z l2.
Proof. unfold sum_list_Z. induction 1; simpl in *; lia. Qed.

Lemma stock_total_insert_None m k st :
  m !! k = None → stock_total (<[k := st]> m) = StockItem.quantity st + stock_total m.
Proof.
  intros Hk. unfold stock_total.
  erewrite sum_list_Z_perm; [|by apply fmap_Permutation, map_to_list_insert].
  done.
Qed.

Lemma stock_total_insert_Some m k st st' :
  m !! k = Some st →
  stock_total (<[k := st']> m)
  = stock_total m - StockItem.quantity st + StockItem.quantity st'.
Proof.
  intros Hk.
  rewrite <- (insert_delete_eq m k st').
  rewrite <- (insert_delete_id m k st Hk) at 2.
  rewrite !stock_total_insert_None by apply lookup_delete_eq. lia.
Qed.

Lemma alloc_sum_cons ki l sk :
  alloc_sum (ki :: l) sk
  = (if decide (BuildItem.stock_item ki.2 = sk) then BuildItem.quantity ki.2 else 0)
    + alloc_sum l sk.
Proof.
  unfold alloc_sum, sum_list_Z. rewrite filter_cons.
  destruct (decide (BuildItem.stock_item ki.2 = sk)); [by rewrite fmap_cons|lia].
Qed.

Lemma alloc_sum_allocated_stock b s sk :
  alloc_sum (allocated_stock b s) sk = allocated_on b sk s.
Proof.
  unfold alloc_sum, allocated_on, allocated_stock, build_items_filter.
  rewrite list_filter_filter. do 2 f_equal.
  apply list_filter_iff. intros ki. tauto.
Qed.

Lemma consumed_consumed q1 q2 st :
  consumed q2 (consumed q1 st) = consumed (q1 + q2) st.
Proof. unfold consumed, StockItem.set_quantity; simpl. f_equal. lia. Qed.

Lemma consumed_0 st : consumed 0 st = st.
Proof. destruct st. unfold consumed, StockItem.set_quantity; simpl. f_equal. lia. Qed.

(** One turn of the loop of [completeBuild] that returns, with the
    consuming operation of the specification. *)
Lemma complete_item_Return user ki w w1 :
  complete_item (H := spec_collaborators) user ki w = Return tt w1 →
  ∃ st, stock (db w) !! BuildItem.stock_item ki.2 = Some st
        ∧ BuildItem.quantity ki.2 ≤ StockItem.quantity st
        ∧ w1 = mkWorld (self w)
                 (mkStore (builds (db w))
                    (delete ki.1 (build_items (db w)))
                    (<[BuildItem.stock_item ki.2 := consumed (BuildItem.quantity ki.2) st]>
                       (stock (db w)))
                    (bom (db w))).
Proof.
  unfold complete_item, bind, get_self, related_stock_item.
  destruct (stock (db w) !! BuildItem.stock_item ki.2) as [st|]; [|done].
  simpl. unfold spec_take_stock. case_bool_decide as Hq; [done|].
  unfold build_item_delete, modify_db. intros [= <-].
  exists st. split; [done|]. split; [lia|done].
Qed.

Lemma complete_loop_Return user l : ∀ w w',
  for_each l (complete_item (H := spec_collaborators) user) w = Return tt w' →
  self w' = self w
  ∧ builds (db w') = builds (db w)
  ∧ bom (db w') = bom (db w)
  ∧ build_items (db w') = foldl (λ m ki, delete ki.1 m) (build_items (db w)) l
  ∧ (∀ sk, stock (db w') !! sk = consumed (alloc_sum l sk) <$> stock (db w) !! sk)
  ∧ stock_total (stock (db w'))
    = stock_total (stock (db w)) - sum_list_Z ((λ ki, BuildItem.quantity ki.2) <$> l).
Proof.
  induction l as [|ki l IH]; intros w w'.
  - intros [= <-]. split_and!; try done; [|simpl; lia].
    intros sk. unfold alloc_sum; simpl.
    destruct (stock (db w) !! sk) as [st|]; simpl; [|done]. by rewrite consumed_0.
  - rewrite for_each_cons.
    destruct (complete_item user ki w) as [[] w1|e w1] eqn:Hstep; [|done].
    apply complete_item_Return in Hstep as (st & Hst & Hq & ->).
    intros Hrest. apply IH in Hrest as (Hself & Hb & Hbom & Hitems & Hstock & Htotal).
    rewrite fmap_cons, sum_list_Z_cons. simpl in *. split_and!; try done.
    + intros sk. rewrite Hstock, alloc_sum_cons.
      destruct (decide (BuildItem.stock_item ki.2 = sk)) as [<-|Hne].
      * rewrite lookup_insert_eq, Hst. simpl. by rewrite consumed_consumed.
      * rewrite lookup_insert_ne by done.
        by destruct (stock (db w) !! sk).
    + rewrite Htotal, (stock_total_insert_Some _ _ st) by done.
      unfold consumed at 1; simpl. lia.
Qed.

Lemma allocated_stock_same_id b b' s :
  Build.id b = Build.id b' → allocated_stock b s = allocated_stock b' s.
Proof. unfold allocated_stock. by intros ->. Qed.

(** C2: when the Complete transaction returns (with the consuming
    operation of the specification), the stock table is the old one with
    one new key, which holds an item of the target part with the build's
    quantity; every old stock item has lost exactly what this build had
    allocated on it, which is the quantity of its record when the build
    has one record for it; the quantities taken add up to the total
    allocated before; no record of the build is left; the completion
    fields are set and the status is COMPLETE.  The status before plays no
    part, so this holds for every PENDING build. *)
Theorem completeBuild_commits location user now w w' :
  completeBuild (H := spec_collaborators) location user now w = Return tt w' →
  (∃ k, stock (db w) !! k = None
        ∧ stock (db w') !! k = Some (built_item (self w) location now)
        ∧ dom (stock (db w')) = {[k]} ∪ dom (stock (db w))
        ∧ stock_total (stock (db w)) - stock_total (delete k (stock (db w')))
          = sum_list_Z ((λ ki, BuildItem.quantity ki.2)
                          <$> allocated_stock (self w) (db w)))
  ∧ (∀ sk st, stock (db w) !! sk = Some st →
       stock (db w') !! sk = Some (consumed (allocated_on (self w) sk (db w)) st))
  ∧ (∀ k i st,
       build_items_filter (self w) (BuildItem.stock_item i) (db w) = [(k, i)] →
       stock (db w) !! BuildItem.stock_item i = Some st →
       StockItem.quantity <$> stock (db w') !! BuildItem.stock_item i
       = Some (StockItem.quantity st - BuildItem.quantity i))
  ∧ StockItem.part (built_item (self w) location now) = Build.part (self w)
  ∧ StockItem.quantity (built_item (self w) location now) = Build.quantity (self w)
  ∧ build_items (db w') = without_build (self w) (build_items (db w))
  ∧ allocated_stock (self w') (db w') = []
  ∧ Build.status (self w') = COMPLETE
  ∧ Build.completion_date (self w') = Some now
  ∧ Build.completed_by (self w') = Some user
  ∧ builds (db w') !! Build.id (self w) = Some (self w').
Proof.
  rewrite completeBuild_unfold.
  destruct (for_each _ _ w) as [[] w1|e w1] eqn:Hloop; [|done].
  intros [= <-].
  apply complete_loop_Return in Hloop as (Hself & Hb & Hbom & Hitems & Hstock & Htotal).
  rewrite delete_allocated_stock in Hitems.
  assert (dom (stock (db w1)) = dom (stock (db w))) as Hdom.
  { apply set_eq. intros sk. rewrite !elem_of_dom, Hstock.
    by rewrite fmap_is_Some. }
  assert (∀ sk st, stock (db w) !! sk = Some st →
            stock (db w1) !! sk = Some (consumed (allocated_on (self w) sk (db w)) st))
    as Hold.
  { intros sk st Hsk. by rewrite Hstock, Hsk, alloc_sum_allocated_stock. }
  pose proof (fresh_stock_key (stock (db w1))) as Hfresh.
  assert (stock (db w) !! fresh (dom (stock (db w1))) = None) as Hfresh0.
  { rewrite Hdom. apply fresh_stock_key. }
  unfold completed; simpl. rewrite Hself.
  split_and!; try done.
  - exists (fresh (dom (stock (db w1)))). split_and!; [done| | |].
    + apply lookup_insert_eq.
    + by rewrite dom_insert_L, Hdom.
    + rewrite delete_insert_id by done. lia.
  - intros sk st Hsk. rewrite lookup_insert_ne by congruence. by apply Hold.
  - intros k i st Hone Hst. rewrite lookup_insert_ne by congruence.
    rewrite (Hold _ _ Hst). unfold allocated_on. rewrite Hone. simpl.
    do 2 f_equal. lia.
  - eapply allocated_stock_without_build. exact Hitems.
  - apply lookup_insert_eq.
Qed.

Lemma completeBuild_commits_witness :
  completeBuild (H := spec_collaborators) (Some 4%positive) 3 "2019-05-02" ready_world
  = Return tt ready_world_completed
  ∧ (∃ k, stock (db ready_world) !! k = None
        ∧ stock (db ready_world_completed) !! k
          = Some (built_item short_build (Some 4%positive) "2019-05-02")
        ∧ dom (stock (db ready_world_completed)) = {[k]} ∪ dom (stock (db ready_world))
        ∧ stock_total (stock (db ready_world))
          - stock_total (delete k (stock (db ready_world_completed)))
          = sum_list_Z ((λ ki, BuildItem.quantity ki.2)
                          <$> allocated_stock short_build (db ready_world)))
  ∧ (∀ sk st, stock (db ready_world) !! sk = Some st →
       stock (db ready_world_completed) !! sk
       = Some (consumed (allocated_on short_build sk (db ready_world)) st))
  ∧ (∀ k i st,
       build_items_filter short_build (BuildItem.stock_item i) (db ready_world) = [(k, i)] →
       stock (db ready_world) !! BuildItem.stock_item i = Some st →
       StockItem.quantity <$> stock (db ready_world_completed) !! BuildItem.stock_item i
       = Some (StockItem.quantity st - BuildItem.quantity i))
  ∧ StockItem.part (built_item short_build (Some 4%positive) "2019-05-02") = 1%positive
  ∧ StockItem.quantity (built_item short_build (Some 4%positive) "2019-05-02") = 5
  ∧ build_items (db ready_world_completed)
    = without_build short_build (build_items (db ready_world))
  ∧ allocated_stock (self ready_world_completed) (db ready_world_completed) = []
  ∧ Build.status (self ready_world_completed) = COMPLETE
  ∧ Build.completion_date (self ready_world_completed) = Some "2019-05-02"
  ∧ Build.completed_by (self ready_world_completed) = Some 3%positive
  ∧ builds (db ready_world_completed) !! 1%positive = Some (self ready_world_completed).
Proof.
  split; [reflexivity|].
  apply (completeBuild_commits (Some 4%positive) 3%positive "2019-05-02"
           ready_world ready_world_completed).
  reflexivity.
Defined.

(** ** Quantity accounting *)

Lemma elem_of_allocated_to_part b p s k i :
  (k, i) ∈ allocated_to_part b p s ↔
  build_items s !! k = Some i ∧ BuildItem.build i = Build.id b
  ∧ ∃ st, stock s !! BuildItem.stock_item i = Some st ∧ StockItem.part st = p.
Proof.
  unfold allocated_to_part.
  rewrite list_elem_of_filter, elem_of_allocated_stock. simpl.
  rewrite fmap_Some. split.
  - intros [(st & Hst & ->) [Hk Hb]]. split_and!; [done..|]. by exists st.
  - intros (Hk & Hb & st & Hst & <-). split; [by exists st|done].
Qed.

Lemma getAllocatedQuantity_sum b p s :
  getAllocatedQuantity b p s
  = sum_list_Z ((λ ki, BuildItem.quantity ki.2) <$> allocated_to_part b p s).
Proof.
  unfold getAllocatedQuantity.
  destruct (allocated_to_part b p s) as [|ki l]; [done|].
  by case_bool_decide as Hq; [rewrite Hq|].
Qed.

(** [BomItem.objects.get] raises when the BOM has more than one line for
    the pair, and then so do the two quantities that use it. *)
Lemma getRequiredQuantity_duplicate_lines b p s item1 item2 rest :
  filter (λ l, BomItem.part l = Build.part b ∧ BomItem.sub_part l = p) (bom s)
  = item1 :: item2 :: rest →
  getRequiredQuantity b p s = inl MultipleObjectsReturned
  ∧ getUnallocatedQuantity b p s = inl MultipleObjectsReturned.
Proof.
  intros Hlines. unfold getUnallocatedQuantity, getRequiredQuantity, BomItem_get.
  by rewrite Hlines.
Qed.

(** C4: the unallocated quantity of a part is
    max(required - allocated, 0), so it is never negative; the required
    quantity is the quantity of the BOM line of the part under the target
    part times the build's quantity, and 0 when there is no such line; the
    allocated quantity is the sum of the quantities of the build's records
    whose stock item has the part, and 0 when there is none. *)
Theorem getUnallocatedQuantity_spec b p s :
  (∀ r, getRequiredQuantity b p s = inr r →
        getUnallocatedQuantity b p s
        = inr (Z.max (r - getAllocatedQuantity b p s) 0))
  ∧ (∀ u, getUnallocatedQuantity b p s = inr u → 0 ≤ u)
  ∧ (filter (λ l, BomItem.part l = Build.part b ∧ BomItem.sub_part l = p) (bom s) = [] →
     getRequiredQuantity b p s = inr 0)
  ∧ (∀ item,
       filter (λ l, BomItem.part l = Build.part b ∧ BomItem.sub_part l = p) (bom s)
       = [item] →
       getRequiredQuantity b p s = inr (BomItem.quantity item * Build.quantity b))
  ∧ getAllocatedQuantity b p s
    = sum_list_Z ((λ ki, BuildItem.quantity ki.2) <$> allocated_to_part b p s)
  ∧ (∀ k i, (k, i) ∈ allocated_to_part b p s ↔
       build_items s !! k = Some i ∧ BuildItem.build i = Build.id b
       ∧ ∃ st, stock s !! BuildItem.stock_item i = Some st ∧ StockItem.part st = p)
  ∧ (allocated_to_part b p s = [] → getAllocatedQuantity b p s = 0).
Proof.
  split_and!.
  - intros r Hr. unfold getUnallocatedQuantity. by rewrite Hr.
  - unfold getUnallocatedQuantity.
    destruct (getRequiredQuantity b p s) as [e|r]; [done|]. intros u [= <-]. lia.
  - intros Hlines. unfold getRequiredQuantity, BomItem_get. by rewrite Hlines.
  - intros item Hlines. unfold getRequiredQuantity, BomItem_get. by rewrite Hlines.
  - apply getAllocatedQuantity_sum.
  - apply elem_of_allocated_to_part.
  - intros Hnone. unfold getAllocatedQuantity. by rewrite Hnone.
Qed.

Lemma getUnallocatedQuantity_spec_witness :
  getRequiredQuantity short_build 2 (db ready_world) = inr 10
  ∧ getAllocatedQuantity short_build 2 (db ready_world) = 7
  ∧ getUnallocatedQuantity short_build 2 (db ready_world) = inr 3.
Proof.
  split; [reflexivity|]. split; [reflexivity|].
  exact (proj1 (getUnallocatedQuantity_spec short_build 2 (db ready_world))
           10 eq_refl).
Defined.

(** ** can_build *)

Lemma can_build_loop_true b s (l : list BomItem.t) :
  can_build_loop s
    ((λ item, RequiredPart.mk (BomItem.sub_part item) (BomItem.quantity item)
                (BomItem.quantity item * Build.quantity b)
                (getAllocatedQuantity b (BomItem.sub_part item) s)) <$> l) = true
  ↔ ∀ item, item ∈ l →
      BomItem.quantity item * Build.quantity b ≤ total_stock (BomItem.sub_part item) s.
Proof.
  induction l as [|item l IH].
  - split; [|done]. intros _ item Hin. by apply elem_of_nil in Hin.
  - rewrite fmap_cons. cbn [can_build_loop RequiredPart.part RequiredPart.quantity].
    case_bool_decide as Hlt.
    + split; [done|]. intros Hall. specialize (Hall item (list_elem_of_here _ _)). lia.
    + rewrite IH. split.
      * intros Hall item' Hin. apply elem_of_cons in Hin as [->|Hin]; [lia|by apply Hall].
      * intros Hall item' Hin. apply Hall. by right.
Qed.

(** C8: [can_build] holds exactly when, for every BOM line of the target
    part (every row of the BOM table whose part is the target part), the
    total stock of the sub-part, which is the sum of the quantities of
    all the rows of the stock table that have the sub-part, is at least
    the line's quantity times the build's quantity; it holds when the
    target part has no BOM line; neither the total stock nor [can_build]
    depends on the ledger, so nothing allocated to this or another build
    is subtracted. *)
Theorem can_build_spec b s :
  (can_build b s = true ↔
   ∀ item, item ∈ bom s → BomItem.part item = Build.part b →
     BomItem.quantity item * Build.quantity b
     ≤ sum_list_Z ((λ ks, StockItem.quantity ks.2)
                     <$> filter (λ ks, StockItem.part ks.2 = BomItem.sub_part item)
                           (map_to_list (stock s))))
  ∧ ((∀ item, item ∈ bom s → BomItem.part item ≠ Build.part b) →
     can_build b s = true)
  ∧ (can_build b s = true ↔
     ∀ item, item ∈ bom_items b s →
       BomItem.quantity item * Build.quantity b ≤ total_stock (BomItem.sub_part item) s)
  ∧ (∀ item, item ∈ bom_items b s ↔ BomItem.part item = Build.part b ∧ item ∈ bom s)
  ∧ (bom_items b s = [] → can_build b s = true)
  ∧ (∀ p, total_stock p s
          = sum_list_Z ((λ ks, StockItem.quantity ks.2) <$> stock_filter_part p s))
  ∧ (∀ p k st, (k, st) ∈ stock_filter_part p s ↔
               stock s !! k = Some st ∧ StockItem.part st = p)
  ∧ (∀ m p, total_stock p (set_build_items m s) = total_stock p s)
  ∧ (∀ m, can_build b (set_build_items m s) = can_build b s).
Proof.
  assert (∀ item, item ∈ bom_items b s ↔ BomItem.part item = Build.part b ∧ item ∈ bom s)
    as Hlines by (intros item; unfold bom_items; by rewrite list_elem_of_filter).
  assert (can_build b s = true ↔
          ∀ item, item ∈ bom s → BomItem.part item = Build.part b →
            BomItem.quantity item * Build.quantity b
            ≤ sum_list_Z ((λ ks, StockItem.quantity ks.2)
                            <$> filter (λ ks, StockItem.part ks.2 = BomItem.sub_part item)
                                  (map_to_list (stock s)))) as Hraw.
  { unfold can_build, required_parts. rewrite can_build_loop_true. split.
    - intros Hall item Hin Hpart. apply (Hall item). by apply Hlines.
    - intros Hall item Hin. apply Hlines in Hin as [Hpart Hin]. by apply (Hall item). }
  split_and!.
  - exact Hraw.
  - intros Hnone. apply Hraw. intros item Hin Hpart. by destruct (Hnone item Hin).
  - apply can_build_loop_true.
  - exact Hlines.
  - intros Hnone. unfold can_build, required_parts. by rewrite Hnone.
  - done.
  - intros p k st. apply elem_of_stock_filter_part.
  - done.
  - intros m. apply eq_true_iff_eq.
    unfold can_build, required_parts. rewrite !can_build_loop_true. done.
Qed.

Lemma can_build_spec_witness :
  (∀ item, item ∈ bom (db two_sources_world) →
     BomItem.part item = Build.part short_build →
     BomItem.quantity item * Build.quantity short_build
     ≤ sum_list_Z ((λ ks, StockItem.quantity ks.2)
                     <$> filter (λ ks, StockItem.part ks.2 = BomItem.sub_part item)
                           (map_to_list (stock (db two_sources_world)))))
  ∧ can_build short_build (db two_sources_world) = true
  ∧ can_build short_build (db fresh_world) = false
  ∧ ¬ (∀ item, item ∈ bom (db fresh_world) →
         BomItem.part item = Build.part short_build →
         BomItem.quantity item * Build.quantity short_build
         ≤ sum_list_Z ((λ ks, StockItem.quantity ks.2)
                         <$> filter (λ ks, StockItem.part ks.2 = BomItem.sub_part item)
                               (map_to_list (stock (db fresh_world))))).
Proof.
  assert (∀ item, item ∈ bom (db two_sources_world) →
            BomItem.part item = Build.part short_build →
            BomItem.quantity item * Build.quantity short_build
            ≤ sum_list_Z ((λ ks, StockItem.quantity ks.2)
                            <$> filter (λ ks, StockItem.part ks.2 = BomItem.sub_part item)
                                  (map_to_list (stock (db two_sources_world))))) as Hall.
  { intros item Hin _. apply list_elem_of_singleton in Hin as ->.
    vm_compute. discriminate. }
  split; [exact Hall|].
  split; [exact (proj2 (proj1 (can_build_spec short_build (db two_sources_world))) Hall)|].
  split; [reflexivity|].
  intros Hfresh.
  apply (proj2 (proj1 (can_build_spec short_build (db fresh_world)))) in Hfresh.
  discriminate Hfresh.
Defined.

(** ** Auto-allocation *)

Lemma auto_allocation_Some b s item a :
  auto_allocation b s item = Some a →
  stock_filter_part (BomItem.sub_part item) s = [Allocation.stock_item a]
  ∧ build_items_filter b (Allocation.stock_item a).1 s = []
  ∧ StockItem.quantity (Allocation.stock_item a).2 > 0
  ∧ Allocation.quantity a
    = Z.min (BomItem.quantity item * Build.quantity b)
            (StockItem.quantity (Allocation.stock_item a).2).
Proof.
  unfold auto_allocation.
  destruct (stock_filter_part (BomItem.sub_part item) s) as [|st [|]]; [done| |done].
  case_bool_decide as Hrec; [done|].
  case_bool_decide as Hpos; [|done].
  intros [= <-]. simpl. split_and!; [done| |done|].
  - destruct (build_items_filter b st.1 s); [done|]. simpl in Hrec. lia.
  - case_bool_decide; lia.
Qed.

Lemma auto_allocation_skip b s item st :
  stock_filter_part (BomItem.sub_part item) s = [st] →
  build_items_filter b st.1 s ≠ [] →
  auto_allocation b s item = None.
Proof.
  intros Hone Hrec. unfold auto_allocation. rewrite Hone.
  rewrite bool_decide_true; [done|].
  destruct (build_items_filter b st.1 s); [done|]. simpl. lia.
Qed.



(** ** Applying the proposals *)

Lemma fresh_build_item_key (m : gmap positive BuildItem.t) : m !! fresh (dom m) = None.
Proof. apply not_elem_of_dom, is_fresh. Qed.

Lemma build_item_save_Return item w w1 :
  build_item_save item w = Return tt w1 →
  (∀ k i, build_items (db w) !! k = Some i →
          ¬ (BuildItem.build i = BuildItem.build item
             ∧ BuildItem.stock_item i = BuildItem.stock_item item))
  ∧ w1 = mkWorld (self w)
           (mkStore (builds (db w))
              (<[fresh (dom (build_items (db w))) := item]> (build_items (db w)))
              (stock (db w)) (bom (db w))).
Proof.
  unfold build_item_save. case_bool_decide as Hsign; [done|].
  destruct (filter _ (objects_all (build_items (db w)))) as [|ki l] eqn:Hf; [|done].
  intros [= <-]. split; [|done].
  intros k i Hk Hsame.
  eapply (filter_nil_not_elem_of _ _ (k, i)); [exact Hf|exact Hsame|].
  by apply elem_of_map_to_list.
Qed.

Lemma build_item_save_Raise item w e w1 :
  build_item_save item w = Raise e w1 → e = IntegrityError ∧ w1 = w.
Proof.
  unfold build_item_save. case_bool_decide as Hsign; [by intros [= <- <-]|].
  destruct (filter _ (objects_all (build_items (db w)))); [done|].
  by intros [= <- <-].
Qed.

Lemma build_item_save_sign item w w1 :
  build_item_save item w = Return tt w1 → 0 ≤ BuildItem.quantity item.
Proof. unfold build_item_save. case_bool_decide as Hsign; [done|]. lia. Qed.

Lemma apply_allocations_Return b l : ∀ w w',
  apply_allocations b l w = Return tt w' →
  self w' = self w
  ∧ builds (db w') = builds (db w)
  ∧ stock (db w') = stock (db w)
  ∧ bom (db w') = bom (db w)
  ∧ build_items (db w) ⊆ build_items (db w')
  ∧ size (build_items (db w')) = (size (build_items (db w)) + length l)%nat
  ∧ (∀ a, a ∈ l →
       ∃ k, build_items (db w) !! k = None
            ∧ build_items (db w') !! k
              = Some (BuildItem.mk (Build.id b) (Allocation.stock_item a).1
                        (Allocation.quantity a))).
Proof.
  unfold apply_allocations.
  induction l as [|a l IH]; intros w w'.
  - intros [= <-]. split_and!; try done.
    intros a Hin. by apply elem_of_nil in Hin.
  - rewrite for_each_cons.
    destruct (build_item_save _ w) as [[] w1|e w1] eqn:Hsave; [|done].
    apply build_item_save_Return in Hsave as [_ ->].
    intros Hrest. apply IH in Hrest as (Hself & Hb & Hst & Hbom & Hsub & Hsize & Hall).
    simpl in *.
    pose proof (fresh_build_item_key (build_items (db w))) as Hfresh.
    split_and!; try done.
    + etrans; [|exact Hsub]. by apply insert_subseteq.
    + rewrite Hsize, map_size_insert_None by done. lia.
    + intros a' Hin. apply elem_of_cons in Hin as [->|Hin].
      * exists (fresh (dom (build_items (db w)))). split; [done|].
        eapply lookup_weaken; [|exact Hsub]. apply lookup_insert_eq.
      * destruct (Hall a' Hin) as (k & Hnew & Hk). exists k. split; [|done].
        apply lookup_insert_None in Hnew. tauto.
Qed.

Lemma apply_allocations_Raise b l : ∀ w e w',
  apply_allocations b l w = Raise e w' → e = IntegrityError ∧ self w' = self w.
Proof.
  unfold apply_allocations.
  induction l as [|a l IH]; intros w e w'; [done|].
  rewrite for_each_cons.
  destruct (build_item_save _ w) as [[] w1|e1 w1] eqn:Hsave.
  - apply build_item_save_Return in Hsave as [_ ->].
    intros Hrest. by apply IH in Hrest as [-> ->].
  - apply build_item_save_Raise in Hsave as [-> ->]. by intros [= <- <-].
Qed.

Lemma autoAllocate_unfold w :
  autoAllocate w =
  match apply_allocations (self w) (getAutoAllocations (self w) (db w)) w with
  | Return _ w' => Return tt w'
  | Raise e w' => Raise e (set_db (db w) w')
  end.
Proof.
  unfold autoAllocate, atomic, bind, get_self, get_db.
  by destruct (apply_allocations _ _ w) as [[] w'|e w'].
Qed.

(** An aborted auto-allocation leaves the world as it was. *)
Lemma autoAllocate_Raise_inv w e w' :
  autoAllocate w = Raise e w' → e = IntegrityError ∧ w' = w.
Proof.
  rewrite autoAllocate_unfold.
  destruct (apply_allocations _ _ w) as [[] w1|e1 w1] eqn:Happly; [done|].
  apply apply_allocations_Raise in Happly as [-> Hself].
  intros [= <- <-]. split; [done|].
  unfold set_db. rewrite Hself. apply world_eta.
Qed.

Lemma stock_filter_part_same_stock p s s' :
  stock s' = stock s → stock_filter_part p s' = stock_filter_part p s.
Proof. unfold stock_filter_part. by intros ->. Qed.

Lemma build_items_filter_not_nil b sk s k i :
  build_items s !! k = Some i → BuildItem.build i = Build.id b →
  BuildItem.stock_item i = sk → build_items_filter b sk s ≠ [].
Proof.
  intros Hk Hb Hsk Hnil.
  assert ((k, i) ∈ build_items_filter b sk s) as Hin
    by by apply elem_of_build_items_filter.
  rewrite Hnil in Hin. by apply elem_of_nil in Hin.
Qed.

Lemma omap_nil_None {A B} (f : A → option B) (l : list A) :
  (∀ x, x ∈ l → f x = None) → omap f l = [].
Proof.
  intros Hall. destruct (omap f l) as [|y l'] eqn:Ho; [done|].
  assert (y ∈ omap f l) as Hin by (rewrite Ho; left).
  apply list_elem_of_omap in Hin as (x & Hx & Hfx). rewrite (Hall x Hx) in Hfx. done.
Qed.

(** ** Re-running the auto-allocation *)

(** C6: after [autoAllocate] has returned, every proposal it applied has
    its record; a BOM line whose single candidate stock item has a record
    of this build is skipped; so [getAutoAllocations] proposes nothing any
    more, and a second [autoAllocate] returns and changes nothing. *)
Theorem autoAllocate_idempotent w w' :
  autoAllocate w = Return tt w' →
  (∀ a, a ∈ getAutoAllocations (self w) (db w) →
        build_items_filter (self w) (Allocation.stock_item a).1 (db w') ≠ [])
  ∧ (∀ item st,
       stock_filter_part (BomItem.sub_part item) (db w') = [st] →
       build_items_filter (self w') st.1 (db w') ≠ [] →
       auto_allocation (self w') (db w') item = None)
  ∧ getAutoAllocations (self w') (db w') = []
  ∧ autoAllocate w' = Return tt w'.
Proof.
  rewrite autoAllocate_unfold.
  destruct (apply_allocations _ _ w) as [[] w1|e w1] eqn:Happly; [|done].
  intros [= <-].
  apply apply_allocations_Return in Happly
    as (Hself & Hb & Hst & Hbom & Hsub & Hsize & Hall).
  assert (∀ a, a ∈ getAutoAllocations (self w) (db w) →
            build_items_filter (self w) (Allocation.stock_item a).1 (db w1) ≠ [])
    as Hrecorded.
  { intros a Hin. destruct (Hall a Hin) as (k & _ & Hk).
    by eapply build_items_filter_not_nil. }
  assert (getAutoAllocations (self w1) (db w1) = []) as Hnone.
  { unfold getAutoAllocations. apply omap_nil_None. intros item Hitem.
    rewrite Hself. rewrite Hself in Hitem.
    assert (item ∈ bom_items (self w) (db w)) as Hitem0.
    { unfold bom_items in *. by rewrite <- Hbom. }
    destruct (auto_allocation (self w) (db w1) item) as [a1|] eqn:Hnew; [|done].
    exfalso. apply auto_allocation_Some in Hnew as (Hone1 & Hrec1 & Hpos1 & _).
    rewrite (stock_filter_part_same_stock _ _ _ Hst) in Hone1.
    destruct (auto_allocation (self w) (db w) item) as [a0|] eqn:Hold.
    - assert (a0 ∈ getAutoAllocations (self w) (db w)) as Hin
        by (apply list_elem_of_omap; by exists item).
      apply auto_allocation_Some in Hold as (Hone0 & _).
      rewrite Hone0 in Hone1. injection Hone1 as Heq.
      apply (Hrecorded a0 Hin). by rewrite Heq.
    - unfold auto_allocation in Hold. rewrite Hone1 in Hold.
      case_bool_decide as Hrec0.
      + destruct (build_items_filter (self w) (Allocation.stock_item a1).1 (db w))
          as [|[k i] l] eqn:Hf; [simpl in Hrec0; lia|].
        assert ((k, i) ∈ build_items_filter (self w) (Allocation.stock_item a1).1 (db w))
          as Hin by (rewrite Hf; left).
        apply elem_of_build_items_filter in Hin as (Hk & Hbi & Hsk).
        eapply build_items_filter_not_nil; [|exact Hbi|exact Hsk|exact Hrec1].
        by eapply lookup_weaken.
      + by rewrite bool_decide_true in Hold. }
  split_and!; [done| |done|].
  - intros item st. apply auto_allocation_skip.
  - rewrite autoAllocate_unfold, Hnone. done.
Qed.

Lemma autoAllocate_idempotent_witness :
  autoAllocate fresh_world = Return tt ready_world
  ∧ (∀ a, a ∈ getAutoAllocations (self fresh_world) (db fresh_world) →
        build_items_filter (self fresh_world) (Allocation.stock_item a).1 (db ready_world)
        ≠ [])
  ∧ (∀ item st,
       stock_filter_part (BomItem.sub_part item) (db ready_world) = [st] →
       build_items_filter (self ready_world) st.1 (db ready_world) ≠ [] →
       auto_allocation (self ready_world) (db ready_world) item = None)
  ∧ getAutoAllocations (self ready_world) (db ready_world) = []
  ∧ autoAllocate ready_world = Return tt ready_world.
Proof.
  split; [reflexivity|].
  apply (autoAllocate_idempotent fresh_world ready_world). reflexivity.
Defined.

(** ** The apply step and validation *)

Lemma apply_allocations_only_adds b l : ∀ w w',
  apply_allocations b l w = Return tt w' →
  ∀ k i, build_items (db w') !! k = Some i →
    build_items (db w) !! k = Some i
    ∨ (build_items (db w) !! k = None
       ∧ ∃ a, a ∈ l
              ∧ i = BuildItem.mk (Build.id b) (allocation_key a) (Allocation.quantity a)).
Proof.
  unfold apply_allocations.
  induction l as [|a l IH]; intros w w'.
  - intros [= <-] k i Hk. by left.
  - rewrite for_each_cons.
    destruct (build_item_save _ w) as [[] w1|e w1] eqn:Hsave; [|done].
    apply build_item_save_Return in Hsave as [_ ->].
    intros Hrest k i Hk.
    destruct (IH _ _ Hrest k i Hk) as [Hold|(Hnew & a' & Hin & ->)]; simpl in *.
    + apply lookup_insert_Some in Hold as [[<- <-]|[Hne Hold]]; [|by left].
      right. split; [apply fresh_build_item_key|]. exists a. split; [left|done].
    + right. apply lookup_insert_None in Hnew as [Hnew _].
      split; [done|]. exists a'. split; [by right|done].
Qed.

Lemma elem_of_bom_items b s item :
  item ∈ bom_items b s ↔ BomItem.part item = Build.part b ∧ item ∈ bom s.
Proof. unfold bom_items. by rewrite list_elem_of_filter. Qed.




(** ** The completion fields *)

(** One operation either leaves the build object alone, or is a Cancel
    or a Complete that sets both completion fields and a terminal status. *)
Lemma run_step `{!Collaborators} op w :
  self (world_after (run op w)) = self w
  ∨ (is_transition op
     ∧ terminal (self (world_after (run op w)))
     ∧ is_Some (Build.completion_date (self (world_after (run op w))))
     ∧ is_Some (Build.completed_by (self (world_after (run op w))))).
Proof.
  destruct op as [user now|location user now| |]; simpl.
  - right. rewrite cancelBuild_unfold. simpl. split_and!; [done|by left|done..].
  - rewrite completeBuild_unfold.
    pose proof (complete_loop_self user (allocated_stock (self w) (db w)) w) as Hself.
    destruct (for_each _ _ w) as [[] w1|e w1]; simpl in *; [|by left].
    right. split_and!; [done|by right|done..].
  - by left.
  - left. destruct (autoAllocate w) as [[] w'|e w'] eqn:Hrun.
    + rewrite autoAllocate_unfold in Hrun.
      destruct (apply_allocations _ _ w) as [[] w1|e w1] eqn:Happly; [|done].
      injection Hrun as <-. by apply apply_allocations_Return in Happly as [? _].
    + by apply autoAllocate_Raise_inv in Hrun as [_ ->].
Qed.

Lemma run_ops_cases `{!Collaborators} ops : ∀ w,
  self (run_ops ops w) = self w
  ∨ ((∃ op, op ∈ ops ∧ is_transition op)
     ∧ terminal (self (run_ops ops w))
     ∧ is_Some (Build.completion_date (self (run_ops ops w)))
     ∧ is_Some (Build.completed_by (self (run_ops ops w)))).
Proof.
  induction ops as [|op ops IH]; intros w; [by left|].
  change (run_ops (op :: ops) w) with (run_ops ops (world_after (run op w))).
  destruct (IH (world_after (run op w))) as [Hsame|((op' & Hin & Hop') & Hrest)].
  - rewrite Hsame. destruct (run_step op w) as [Hstep|(Hop & Hrest)]; [by left|].
    right. split; [|done]. exists op. split; [left|done].
  - right. split; [|done]. exists op'. split; [by right|done].
Qed.

(** C9, as the code has it: over any history of operations of the core,
    the completion date and completed-by stay set together; they change
    only when the history has a Cancel or a Complete, and then both are
    set and the status is CANCELLED or COMPLETE; once set they are never
    unset.  (A later Cancel or Complete does overwrite them.) *)
Theorem completion_fields_history `{!Collaborators} ops w :
  (set_together (self w) → set_together (self (run_ops ops w)))
  ∧ (is_Some (Build.completion_date (self w)) →
     is_Some (Build.completion_date (self (run_ops ops w))))
  ∧ (is_Some (Build.completed_by (self w)) →
     is_Some (Build.completed_by (self (run_ops ops w))))
  ∧ (Build.completion_date (self (run_ops ops w)) ≠ Build.completion_date (self w)
     ∨ Build.completed_by (self (run_ops ops w)) ≠ Build.completed_by (self w) →
     (∃ op, op ∈ ops ∧ is_transition op)
     ∧ terminal (self (run_ops ops w))
     ∧ is_Some (Build.completion_date (self (run_ops ops w)))
     ∧ is_Some (Build.completed_by (self (run_ops ops w)))).
Proof.
  destruct (run_ops_cases ops w) as [Hsame|(Hop & Hterm & [d Hd] & [u Hu])].
  - rewrite Hsame. split_and!; try done. by intros [?|?].
  - split_and!; [|by eexists..|by eauto].
    intros _. unfold set_together. rewrite Hd, Hu. done.
Qed.

Lemma completion_fields_history_witness :
  Build.completion_date (self (run_ops (H := spec_collaborators)
                                 [AutoAllocate; Complete None 3 "2019-05-02"; Unallocate]
                                 fresh_world))
  ≠ Build.completion_date (self fresh_world)
  ∧ terminal (self (run_ops (H := spec_collaborators)
                      [AutoAllocate; Complete None 3 "2019-05-02"; Unallocate]
                      fresh_world)).
Proof.
  assert (Build.completion_date
            (self (run_ops (H := spec_collaborators)
                     [AutoAllocate; Complete None 3 "2019-05-02"; Unallocate]
                     fresh_world))
          ≠ Build.completion_date (self fresh_world)) as Hchanged by done.
  split; [exact Hchanged|].
  exact (proj1 (proj2 (proj2 (proj2 (proj2
           (completion_fields_history (H := spec_collaborators)
              [AutoAllocate; Complete None 3 "2019-05-02"; Unallocate] fresh_world)))
           (or_introl Hchanged)))).
Defined.

(** C9 as stated fails: a build completed by user 3 on 2019-05-02 and
    then cancelled by user 8 on 2019-06-30 has both fields overwritten. *)
Lemma completion_fields_overwritten :
  Build.completion_date (self ready_world_completed) = Some "2019-05-02"
  ∧ Build.completed_by (self ready_world_completed) = Some 3%positive
  ∧ Build.status (self ready_world_completed) = COMPLETE
  ∧ Build.completion_date
      (self (world_after (cancelBuild 8 "2019-06-30" ready_world_completed)))
    = Some "2019-06-30"
  ∧ Build.completed_by
      (self (world_after (cancelBuild 8 "2019-06-30" ready_world_completed)))
    = Some 8%positive
  ∧ Build.status
      (self (world_after (cancelBuild 8 "2019-06-30" ready_world_completed)))
    = CANCELLED.
Proof. split_and!; reflexivity. Qed.

(** * Further properties *)

(** ** Unallocate *)

Lemma unallocateStock_unfold w : unallocateStock w = Return tt (unallocated w).
Proof. reflexivity. Qed.

Lemma without_build_lookup b (m : gmap positive BuildItem.t) k i :
  without_build b m !! k = Some i ↔ m !! k = Some i ∧ BuildItem.build i ≠ Build.id b.
Proof. unfold without_build. by rewrite map_lookup_filter_Some. Qed.

Lemma without_build_idemp b (m : gmap positive BuildItem.t) :
  without_build b (without_build b m) = without_build b m.
Proof.
  apply map_eq. intros k. apply option_eq. intros i.
  rewrite !without_build_lookup. tauto.
Qed.

(** X1: [unallocateStock] always commits; it removes the records of this
    build and no other record, leaves the build object, the stock table,
    the build table and the BOM as they were, and running it again
    changes nothing. *)
Theorem unallocateStock_effect w :
  ∃ w', unallocateStock w = Return tt w'
        ∧ self w' = self w
        ∧ stock (db w') = stock (db w)
        ∧ builds (db w') = builds (db w)
        ∧ bom (db w') = bom (db w)
        ∧ (∀ k i, build_items (db w') !! k = Some i ↔
                  build_items (db w) !! k = Some i
                  ∧ BuildItem.build i ≠ Build.id (self w))
        ∧ allocated_stock (self w') (db w') = []
        ∧ unallocateStock w' = Return tt w'.
Proof.
  exists (unallocated w). split; [done|]. simpl. split_and!; try done.
  - intros k i. apply without_build_lookup.
  - by eapply allocated_stock_without_build.
  - rewrite unallocateStock_unfold. unfold unallocated; simpl.
    by rewrite without_build_idemp.
Qed.

Lemma allocated_to_part_nil b p s :
  allocated_stock b s = [] → allocated_to_part b p s = [].
Proof. unfold allocated_to_part. by intros ->. Qed.

Lemma build_items_filter_nil b sk s :
  allocated_stock b s = [] → build_items_filter b sk s = [].
Proof.
  intros Hnone. apply filter_nil_Forall. intros [k i] Hin [Hb _].
  assert ((k, i) ∈ allocated_stock b s) as Hin'.
  { apply elem_of_allocated_stock. split; [|done]. by apply elem_of_map_to_list. }
  rewrite Hnone in Hin'. by apply elem_of_nil in Hin'.
Qed.

(** X2: [unallocateStock] returns, and in the world it leaves nothing
    is allocated: for every part the allocated quantity is 0, the
    required quantity is what it was and the unallocated quantity is the
    required one (or 0 when that is negative), and a BOM line whose
    sub-part has one stock item with a positive quantity is proposed
    again. *)
Theorem unallocateStock_resets w p :
  ∃ w', unallocateStock w = Return tt w'
    ∧ getAllocatedQuantity (self w') p (db w') = 0
    ∧ getRequiredQuantity (self w') p (db w') = getRequiredQuantity (self w) p (db w)
    ∧ (∀ r, getRequiredQuantity (self w) p (db w) = inr r →
            getUnallocatedQuantity (self w') p (db w') = inr (Z.max r 0))
    ∧ (∀ item st,
         stock_filter_part (BomItem.sub_part item) (db w) = [st] →
         StockItem.quantity st.2 > 0 →
         auto_allocation (self w') (db w') item
         = Some (Allocation.mk st
                   (Z.min (BomItem.quantity item * Build.quantity (self w))
                          (StockItem.quantity st.2)))).
Proof.
  exists (unallocated w). split; [apply unallocateStock_unfold|].
  change (self (unallocated w)) with (self w).
  assert (allocated_stock (self w) (db (unallocated w)) = []) as Hnone
    by by eapply allocated_stock_without_build.
  assert (getAllocatedQuantity (self w) p (db (unallocated w)) = 0) as Hzero.
  { unfold getAllocatedQuantity. by rewrite allocated_to_part_nil. }
  split_and!; [done|done| |].
  - intros r Hr. unfold getUnallocatedQuantity.
    change (getRequiredQuantity (self w) p (db (unallocated w)))
      with (getRequiredQuantity (self w) p (db w)).
    rewrite Hr, Hzero. do 2 f_equal. lia.
  - intros item st Hone Hpos. unfold auto_allocation.
    change (stock_filter_part (BomItem.sub_part item) (db (unallocated w)))
      with (stock_filter_part (BomItem.sub_part item) (db w)).
    rewrite Hone, (build_items_filter_nil _ _ _ Hnone). simpl.
    rewrite bool_decide_true by done. do 2 f_equal. case_bool_decide; lia.
Qed.

Lemma unallocateStock_resets_witness :
  getAllocatedQuantity short_build 2 (db ready_world) = 7
  ∧ getUnallocatedQuantity short_build 2 (db ready_world) = inr 3
  ∧ unallocateStock ready_world = Return tt fresh_world
  ∧ getAllocatedQuantity short_build 2 (db fresh_world) = 0
  ∧ getUnallocatedQuantity short_build 2 (db fresh_world) = inr (Z.max 10 0).
Proof.
  assert (unallocateStock ready_world = Return tt fresh_world) as Hrun by reflexivity.
  split; [reflexivity|]. split; [reflexivity|]. split; [exact Hrun|].
  destruct (unallocateStock_resets ready_world 2) as (w' & Hrun' & Hzero & _ & Hun & _).
  rewrite Hrun in Hrun'. injection Hrun' as <-.
  split; [exact Hzero|exact (Hun 10 eq_refl)].
Defined.

(** ** What the apply loop adds *)

(** The loop returns only when no proposal finds a record of the build
    on its stock item. *)
Lemma apply_allocations_no_prior b l : ∀ w w',
  apply_allocations b l w = Return tt w' →
  ∀ a, a ∈ l → ∀ k i, build_items (db w) !! k = Some i →
    ¬ (BuildItem.build i = Build.id b ∧ BuildItem.stock_item i = allocation_key a).
Proof.
  unfold apply_allocations.
  induction l as [|a0 l IH]; intros w w' Hrun a Hin; [by apply elem_of_nil in Hin|].
  rewrite for_each_cons in Hrun.
  destruct (build_item_save _ w) as [[] w1|e w1] eqn:Hsave; [|done].
  apply build_item_save_Return in Hsave as [Hfree ->].
  apply elem_of_cons in Hin as [->|Hin]; [exact Hfree|].
  intros k i Hk. apply (IH _ _ Hrun a Hin k i). simpl.
  rewrite lookup_insert_ne; [done|].
  intros <-. by rewrite fresh_build_item_key in Hk.
Qed.

Lemma apply_allocations_NoDup b l : ∀ w w',
  apply_allocations b l w = Return tt w' → NoDup (allocation_key <$> l).
Proof.
  induction l as [|a l IH]; intros w w' Hrun; [constructor|].
  pose proof Hrun as Hrun0. unfold apply_allocations in Hrun.
  rewrite for_each_cons in Hrun.
  destruct (build_item_save _ w) as [[] w1|e w1] eqn:Hsave; [|done].
  apply build_item_save_Return in Hsave as [_ ->].
  rewrite fmap_cons. constructor; [|by eapply IH].
  intros Hin. apply list_elem_of_fmap in Hin as (a' & Hkey & Hin).
  eapply (apply_allocations_no_prior b l _ _ Hrun a' Hin
            (fresh (dom (build_items (db w))))); simpl.
  - apply lookup_insert_eq.
  - by simpl.
Qed.

(** The loop returns only when no proposal has a negative quantity. *)
Lemma apply_allocations_sign b l : ∀ w w',
  apply_allocations b l w = Return tt w' →
  ∀ a, a ∈ l → 0 ≤ Allocation.quantity a.
Proof.
  unfold apply_allocations.
  induction l as [|a0 l IH]; intros w w' Hrun a Hin; [by apply elem_of_nil in Hin|].
  rewrite for_each_cons in Hrun.
  destruct (build_item_save _ w) as [[] w1|e w1] eqn:Hsave; [|done].
  apply elem_of_cons in Hin as [->|Hin]; [|by eapply IH].
  by apply build_item_save_sign in Hsave.
Qed.

Lemma apply_allocations_succeeds b l : ∀ w,
  (∀ a, a ∈ l → ∀ k i, build_items (db w) !! k = Some i →
     ¬ (BuildItem.build i = Build.id b ∧ BuildItem.stock_item i = allocation_key a)) →
  NoDup (allocation_key <$> l) →
  (∀ a, a ∈ l → 0 ≤ Allocation.quantity a) →
  ∃ w', apply_allocations b l w = Return tt w'.
Proof.
  unfold apply_allocations.
  induction l as [|a l IH]; intros w Hfree Hnodup Hsign; [by eexists|].
  rewrite fmap_cons in Hnodup. apply NoDup_cons in Hnodup as [Hhead Hnodup].
  rewrite for_each_cons. unfold build_item_save at 1.
  rewrite bool_decide_false
    by (simpl; specialize (Hsign a (list_elem_of_here _ _)); lia).
  rewrite (proj2 (filter_nil_Forall _ _)).
  - apply IH; [|done|].
    + intros a' Hin k i Hk [Hb Hsk]. simpl in Hk.
      apply lookup_insert_Some in Hk as [[_ <-]|[_ Hk]]; simpl in *.
      * apply Hhead. apply list_elem_of_fmap. exists a'. by split.
      * eapply (Hfree a'); [by right|exact Hk|done].
    + intros a' Hin. apply Hsign. by right.
  - intros [k i] Hin Hsame. apply elem_of_map_to_list in Hin.
    eapply (Hfree a); [left|exact Hin|exact Hsame].
Qed.

Lemma getAutoAllocations_no_prior b s a :
  a ∈ getAutoAllocations b s →
  ∀ k i, build_items s !! k = Some i →
    ¬ (BuildItem.build i = Build.id b ∧ BuildItem.stock_item i = allocation_key a).
Proof.
  intros Hin k i Hk [Hb Hsk]. unfold getAutoAllocations in Hin.
  apply list_elem_of_omap in Hin as (item & _ & Ha).
  apply auto_allocation_Some in Ha as (_ & Hrec & _).
  by eapply build_items_filter_not_nil.
Qed.

Lemma getAutoAllocations_stock b s a :
  a ∈ getAutoAllocations b s →
  ∃ item, item ∈ bom_items b s
          ∧ auto_allocation b s item = Some a
          ∧ stock s !! allocation_key a = Some (Allocation.stock_item a).2
          ∧ StockItem.part (Allocation.stock_item a).2 = BomItem.sub_part item.
Proof.
  intros Hin. unfold getAutoAllocations in Hin.
  apply list_elem_of_omap in Hin as (item & Hitem & Ha).
  exists item. split; [done|]. split; [done|].
  apply auto_allocation_Some in Ha as (Hone & _).
  assert (Allocation.stock_item a ∈ stock_filter_part (BomItem.sub_part item) s) as Hst
    by (rewrite Hone; left).
  unfold allocation_key. destruct (Allocation.stock_item a) as [sk st].
  by apply elem_of_stock_filter_part in Hst.
Qed.

(** Proposals for different sub-parts are on different stock items. *)
Lemma getAutoAllocations_NoDup b s :
  NoDup (BomItem.sub_part <$> bom_items b s) →
  NoDup (allocation_key <$> getAutoAllocations b s).
Proof.
  unfold getAutoAllocations.
  assert (∀ item a, auto_allocation b s item = Some a →
            StockItem.part <$> stock s !! allocation_key a = Some (BomItem.sub_part item))
    as Hpart.
  { intros item a Ha. apply auto_allocation_Some in Ha as (Hone & _).
    assert (Allocation.stock_item a ∈ stock_filter_part (BomItem.sub_part item) s) as Hst
      by (rewrite Hone; left).
    unfold allocation_key. destruct (Allocation.stock_item a) as [sk st].
    apply elem_of_stock_filter_part in Hst as [Hst <-]. simpl. by rewrite Hst. }
  induction (bom_items b s) as [|item l IH]; [constructor|].
  rewrite fmap_cons. intros [Hhead Hnodup]%NoDup_cons. simpl.
  destruct (auto_allocation b s item) as [a|] eqn:Ha; [|by apply IH].
  rewrite fmap_cons. constructor; [|by apply IH].
  intros Hin. apply list_elem_of_fmap in Hin as (a' & Hkey & Hin).
  apply list_elem_of_omap in Hin as (item' & Hitem' & Ha').
  apply Hhead. apply list_elem_of_fmap. exists item'. split; [|done].
  apply Hpart in Ha, Ha'. rewrite Hkey in Ha. congruence.
Qed.

(** ** Auto-allocation: what is proposed, and when it commits *)





Lemma getAutoAllocations_nonneg b s :
  0 ≤ Build.quantity b →
  (∀ item, item ∈ bom_items b s → 0 ≤ BomItem.quantity item) →
  ∀ a, a ∈ getAutoAllocations b s → 0 ≤ Allocation.quantity a.
Proof.
  intros Hb Hlines a Hin. unfold getAutoAllocations in Hin.
  apply list_elem_of_omap in Hin as (item & Hitem & Ha).
  apply auto_allocation_Some in Ha as (_ & _ & Hpos & ->).
  specialize (Hlines item Hitem).
  pose proof (Z.mul_nonneg_nonneg _ _ Hlines Hb). lia.
Qed.

(** X5: [autoAllocate] commits exactly when no two proposals are on the
    same stock item and no proposal has a negative quantity (otherwise a
    record breaks the uniqueness of (build, stock item) or the column
    check of its quantity, and the transaction is rolled back); so it
    always commits when the BOM lines of the target part have different
    sub-parts and neither they nor the build have a negative quantity. *)
Theorem autoAllocate_commits_iff w :
  ((∃ w', autoAllocate w = Return tt w') ↔
   NoDup (allocation_key <$> getAutoAllocations (self w) (db w))
   ∧ ∀ a, a ∈ getAutoAllocations (self w) (db w) → 0 ≤ Allocation.quantity a)
  ∧ (NoDup (BomItem.sub_part <$> bom_items (self w) (db w)) →
     0 ≤ Build.quantity (self w) →
     (∀ item, item ∈ bom_items (self w) (db w) → 0 ≤ BomItem.quantity item) →
     ∃ w', autoAllocate w = Return tt w').
Proof.
  assert (NoDup (allocation_key <$> getAutoAllocations (self w) (db w)) →
          (∀ a, a ∈ getAutoAllocations (self w) (db w) → 0 ≤ Allocation.quantity a) →
          ∃ w', autoAllocate w = Return tt w') as Hcommit.
  { intros Hnodup Hsign.
    destruct (apply_allocations_succeeds (self w)
                (getAutoAllocations (self w) (db w)) w) as [w' Hrun]; [|done..|].
    - intros a. apply getAutoAllocations_no_prior.
    - exists w'. by rewrite autoAllocate_unfold, Hrun. }
  split; [split|].
  - intros [w' Hrun]. rewrite autoAllocate_unfold in Hrun.
    destruct (apply_allocations _ _ w) as [[] w1|e w1] eqn:Happly; [|done].
    split; [by eapply apply_allocations_NoDup|by eapply apply_allocations_sign].
  - intros [Hnodup Hsign]. by apply Hcommit.
  - intros Hlines Hb Hq.
    apply Hcommit; [by apply getAutoAllocations_NoDup|by apply getAutoAllocations_nonneg].
Qed.

Lemma autoAllocate_commits_iff_witness :
  NoDup (BomItem.sub_part <$> bom_items (self fresh_world) (db fresh_world))
  ∧ 0 ≤ Build.quantity (self fresh_world)
  ∧ (∀ item, item ∈ bom_items (self fresh_world) (db fresh_world) →
             0 ≤ BomItem.quantity item)
  ∧ ∃ w', autoAllocate fresh_world = Return tt w'.
Proof.
  assert (NoDup (BomItem.sub_part <$> bom_items (self fresh_world) (db fresh_world)))
    as Hlines by (vm_compute; apply NoDup_singleton).
  assert (0 ≤ Build.quantity (self fresh_world)) as Hb by (vm_compute; discriminate).
  assert (∀ item, item ∈ bom_items (self fresh_world) (db fresh_world) →
            0 ≤ BomItem.quantity item) as Hq.
  { intros item Hin. vm_compute in Hin. apply list_elem_of_singleton in Hin as ->.
    vm_compute. discriminate. }
  split; [exact Hlines|]. split; [exact Hb|]. split; [exact Hq|].
  exact (proj2 (autoAllocate_commits_iff fresh_world) Hlines Hb Hq).
Defined.

(** ** Auto-allocate, then unallocate *)

(** X6: [unallocateStock] undoes [autoAllocate] in the store: on a build
    without records, a committed [autoAllocate] followed by
    [unallocateStock] returns with every table holding the rows it
    started with, under the same keys, and with the build object as it
    was.  (Which keys later records get is a matter of the database's key
    sequence, which is outside the store.) *)
Theorem autoAllocate_unallocateStock w w1 :
  allocated_stock (self w) (db w) = [] →
  autoAllocate w = Return tt w1 →
  ∃ w2, unallocateStock w1 = Return tt w2
        ∧ self w2 = self w
        ∧ build_items (db w2) = build_items (db w)
        ∧ stock (db w2) = stock (db w)
        ∧ builds (db w2) = builds (db w)
        ∧ bom (db w2) = bom (db w).
Proof.
  intros Hnone Hrun. exists (unallocated w1). split; [apply unallocateStock_unfold|].
  rewrite autoAllocate_unfold in Hrun.
  destruct (apply_allocations _ _ w) as [[] w'|e w'] eqn:Happly; [|done].
  injection Hrun as ->.
  pose proof (apply_allocations_only_adds _ _ _ _ Happly) as Honly.
  apply apply_allocations_Return in Happly
    as (Hself & Hb & Hst & Hbom & Hsub & _ & _).
  unfold unallocated; simpl. split_and!; try done.
  apply map_eq. intros k. apply option_eq. intros i.
  rewrite without_build_lookup, Hself. split.
  - intros [Hk Hne]. destruct (Honly k i Hk) as [Hold|(_ & a & _ & ->)]; [done|].
    by destruct Hne.
  - intros Hk. split; [by eapply lookup_weaken|].
    intros Hb'. assert ((k, i) ∈ allocated_stock (self w) (db w)) as Hin
      by by apply elem_of_allocated_stock.
    rewrite Hnone in Hin. by apply elem_of_nil in Hin.
Qed.

Lemma autoAllocate_unallocateStock_witness :
  allocated_stock (self fresh_world) (db fresh_world) = []
  ∧ autoAllocate fresh_world = Return tt ready_world
  ∧ build_items (db ready_world) ≠ build_items (db fresh_world)
  ∧ ∃ w2, unallocateStock ready_world = Return tt w2
          ∧ self w2 = self fresh_world
          ∧ build_items (db w2) = build_items (db fresh_world)
          ∧ stock (db w2) = stock (db fresh_world)
          ∧ builds (db w2) = builds (db fresh_world)
          ∧ bom (db w2) = bom (db fresh_world).
Proof.
  split; [reflexivity|]. split; [reflexivity|]. split; [done|].
  exact (autoAllocate_unallocateStock fresh_world ready_world eq_refl eq_refl).
Defined.

(** ** What auto-allocation adds to the allocated quantities *)

Lemma getAllocatedQuantity_insert b p s k i :
  build_items s !! k = None →
  BuildItem.build i = Build.id b →
  getAllocatedQuantity b p (set_build_items (<[k := i]> (build_items s)) s)
  = getAllocatedQuantity b p s
    + (if decide (StockItem.part <$> stock s !! BuildItem.stock_item i = Some p)
       then BuildItem.quantity i else 0).
Proof.
  intros Hk Hb. rewrite !getAllocatedQuantity_sum.
  unfold allocated_to_part, allocated_stock, objects_all. simpl.
  erewrite sum_list_Z_perm;
    [|apply fmap_Permutation; do 2 apply filter_Permutation;
      by apply map_to_list_insert].
  rewrite filter_cons, decide_True by done. rewrite filter_cons. simpl.
  destruct (decide _); [rewrite fmap_cons, sum_list_Z_cons|]; simpl; lia.
Qed.

Lemma apply_allocations_allocated b p l : ∀ w w',
  apply_allocations b l w = Return tt w' →
  getAllocatedQuantity b p (db w')
  = getAllocatedQuantity b p (db w)
    + sum_list_Z (Allocation.quantity
                    <$> filter (λ a, StockItem.part <$> stock (db w) !! allocation_key a
                                     = Some p) l).
Proof.
  unfold apply_allocations.
  induction l as [|a l IH]; intros w w'.
  - intros [= <-]. simpl. lia.
  - rewrite for_each_cons.
    destruct (build_item_save _ w) as [[] w1|e w1] eqn:Hsave; [|done].
    apply build_item_save_Return in Hsave as [_ ->].
    intros Hrest. rewrite (IH _ _ Hrest). simpl.
    pose proof (getAllocatedQuantity_insert b p (db w)
                  (fresh (dom (build_items (db w))))
                  (BuildItem.mk (Build.id b) (allocation_key a) (Allocation.quantity a))
                  (fresh_build_item_key _) eq_refl) as Hstep.
    unfold set_build_items in Hstep. simpl in Hstep. unfold allocation_key in *.
    rewrite Hstep. simpl.
    rewrite filter_cons. destruct (decide _); [rewrite fmap_cons, sum_list_Z_cons|]; lia.
Qed.

Lemma list_filter_iff_elem {A} (P1 P2 : A → Prop)
    `{!∀ x, Decision (P1 x), !∀ x, Decision (P2 x)} (l : list A) :
  (∀ x, x ∈ l → P1 x ↔ P2 x) → filter P1 l = filter P2 l.
Proof.
  induction l as [|x l IH]; intros Hiff; [done|].
  rewrite !filter_cons, IH by (intros y Hy; apply Hiff; by right).
  destruct (decide (P1 x)) as [HP|HP], (decide (P2 x)) as [HQ|HQ]; try done;
    apply (Hiff x (list_elem_of_here _ _)) in HP || apply (Hiff x (list_elem_of_here _ _)) in HQ;
    done.
Qed.

Lemma sum_single_key (l : list Allocation.t) a :
  NoDup (allocation_key <$> l) → a ∈ l →
  sum_list_Z (Allocation.quantity
                <$> filter (λ a', allocation_key a' = allocation_key a) l)
  = Allocation.quantity a.
Proof.
  induction l as [|a0 l IH]; intros Hnodup Hin; [by apply elem_of_nil in Hin|].
  rewrite fmap_cons in Hnodup. apply NoDup_cons in Hnodup as [Hhead Hnodup].
  rewrite filter_cons. apply elem_of_cons in Hin as [->|Hin].
  - rewrite decide_True by done. rewrite fmap_cons, sum_list_Z_cons.
    rewrite (proj2 (filter_nil_Forall _ _)); [simpl; lia|].
    intros a' Hin' Hkey. apply Hhead. apply list_elem_of_fmap. by exists a'.
  - rewrite decide_False; [by apply IH|].
    intros Hkey. apply Hhead. apply list_elem_of_fmap. by exists a.
Qed.

Lemma autoAllocate_adds w w' p :
  autoAllocate w = Return tt w' →
  getAllocatedQuantity (self w) p (db w')
  = getAllocatedQuantity (self w) p (db w)
    + sum_list_Z (Allocation.quantity
                    <$> filter (λ a, StockItem.part (Allocation.stock_item a).2 = p)
                          (getAutoAllocations (self w) (db w))).
Proof.
  rewrite autoAllocate_unfold.
  destruct (apply_allocations _ _ w) as [[] w1|e w1] eqn:Happly; [|done].
  intros [= <-]. rewrite (apply_allocations_allocated _ p _ _ _ Happly).
  do 3 f_equal. apply list_filter_iff_elem.
  intros a Hin. apply getAutoAllocations_stock in Hin as (_ & _ & _ & Hst & _).
  rewrite Hst. simpl. split; congruence.
Qed.

(** X7: a committed [autoAllocate] raises the allocated quantity of
    every part by the sum of the quantities it proposed on stock items of
    that part, and by nothing else. *)
Theorem autoAllocate_allocated w w' p :
  autoAllocate w = Return tt w' →
  getAllocatedQuantity (self w) p (db w')
  = getAllocatedQuantity (self w) p (db w)
    + sum_list_Z (Allocation.quantity
                    <$> filter (λ a, StockItem.part (Allocation.stock_item a).2 = p)
                          (getAutoAllocations (self w) (db w))).
Proof. apply autoAllocate_adds. Qed.

Lemma autoAllocate_allocated_witness :
  autoAllocate fresh_world = Return tt ready_world
  ∧ getAllocatedQuantity short_build 2 (db ready_world)
    = getAllocatedQuantity short_build 2 (db fresh_world)
      + sum_list_Z (Allocation.quantity
                      <$> filter (λ a, StockItem.part (Allocation.stock_item a).2 = 2%positive)
                            (getAutoAllocations short_build (db fresh_world))).
Proof.
  split; [reflexivity|].
  exact (autoAllocate_allocated fresh_world ready_world 2 eq_refl).
Defined.

Lemma allocated_to_part_unallocated_item b s p st :
  stock_filter_part p s = [st] →
  build_items_filter b st.1 s = [] →
  allocated_to_part b p s = [].
Proof.
  intros Hone Hrec. apply filter_nil_Forall. intros [k i] Hin Hpart. simpl in Hpart.
  apply elem_of_allocated_stock in Hin as [Hk Hb].
  apply fmap_Some in Hpart as (st' & Hst' & Hp).
  assert ((BuildItem.stock_item i, st') ∈ stock_filter_part p s) as Hin
    by by apply elem_of_stock_filter_part.
  rewrite Hone in Hin. apply list_elem_of_singleton in Hin.
  eapply build_items_filter_not_nil; [exact Hk|exact Hb| |exact Hrec].
  by rewrite <- Hin.
Qed.

Lemma getRequiredQuantity_of_line b s item r :
  item ∈ bom_items b s →
  getRequiredQuantity b (BomItem.sub_part item) s = inr r →
  r = BomItem.quantity item * Build.quantity b.
Proof.
  intros Hitem. apply elem_of_bom_items in Hitem as [Hpart Hin].
  unfold getRequiredQuantity, BomItem_get.
  assert (item ∈ filter (λ l, BomItem.part l = Build.part b
                              ∧ BomItem.sub_part l = BomItem.sub_part item) (bom s))
    as Hline by by apply list_elem_of_filter.
  destruct (filter _ (bom s)) as [|x [|y l]]; [by apply elem_of_nil in Hline| |done].
  apply list_elem_of_singleton in Hline. subst x. by intros [= <-].
Qed.

(** X8: after a committed [autoAllocate], a part for which a proposal
    was made has exactly min(required, available) allocated, so never
    more than the build requires of it, and what remains unallocated is
    what the stock item could not cover: max(required - available, 0). *)
Theorem autoAllocate_line w w' item a :
  autoAllocate w = Return tt w' →
  item ∈ bom_items (self w) (db w) →
  auto_allocation (self w) (db w) item = Some a →
  getAllocatedQuantity (self w) (BomItem.sub_part item) (db w')
  = Z.min (BomItem.quantity item * Build.quantity (self w))
          (StockItem.quantity (Allocation.stock_item a).2)
  ∧ getAllocatedQuantity (self w) (BomItem.sub_part item) (db w')
    ≤ BomItem.quantity item * Build.quantity (self w)
  ∧ (∀ r, getRequiredQuantity (self w) (BomItem.sub_part item) (db w') = inr r →
          r = BomItem.quantity item * Build.quantity (self w)
          ∧ getUnallocatedQuantity (self w) (BomItem.sub_part item) (db w')
            = inr (Z.max (r - StockItem.quantity (Allocation.stock_item a).2) 0)).
Proof.
  intros Hrun Hitem Ha.
  pose proof (autoAllocate_adds w w' (BomItem.sub_part item) Hrun) as Hsum.
  assert (a ∈ getAutoAllocations (self w) (db w)) as Hin
    by (apply list_elem_of_omap; by exists item).
  pose proof Ha as Ha0. apply auto_allocation_Some in Ha0 as (Hone & Hrec & Hpos & Hq).
  rewrite autoAllocate_unfold in Hrun.
  destruct (apply_allocations _ _ w) as [[] w1|e w1] eqn:Happly; [|done].
  injection Hrun as ->.
  pose proof (apply_allocations_NoDup _ _ _ _ Happly) as Hnodup.
  apply apply_allocations_Return in Happly as (_ & _ & _ & Hbom & _).
  assert (getAllocatedQuantity (self w) (BomItem.sub_part item) (db w) = 0) as Hbefore.
  { unfold getAllocatedQuantity.
    by rewrite (allocated_to_part_unallocated_item _ _ _ _ Hone Hrec). }
  assert (filter (λ a', StockItem.part (Allocation.stock_item a').2 = BomItem.sub_part item)
            (getAutoAllocations (self w) (db w))
          = filter (λ a', allocation_key a' = allocation_key a)
              (getAutoAllocations (self w) (db w))) as Hfilter.
  { apply list_filter_iff_elem. intros a' Hin'.
    apply getAutoAllocations_stock in Hin' as (? & _ & _ & Hst' & _).
    apply getAutoAllocations_stock in Hin as (? & _ & _ & Hst & _).
    split.
    - intros Hp.
      assert ((allocation_key a', (Allocation.stock_item a').2)
              ∈ stock_filter_part (BomItem.sub_part item) (db w)) as Hel
        by by apply elem_of_stock_filter_part.
      rewrite Hone in Hel. apply list_elem_of_singleton in Hel.
      unfold allocation_key. by rewrite <- Hel.
    - intros Hkey. rewrite Hkey in Hst'.
      assert (Allocation.stock_item a
              ∈ stock_filter_part (BomItem.sub_part item) (db w)) as Hel
        by (rewrite Hone; left).
      destruct (Allocation.stock_item a) as [sk st] eqn:Hsa.
      apply elem_of_stock_filter_part in Hel as [_ Hpa]. simpl in *. congruence. }
  rewrite Hfilter, (sum_single_key _ a Hnodup Hin), Hbefore in Hsum.
  assert (getAllocatedQuantity (self w) (BomItem.sub_part item) (db w')
          = Z.min (BomItem.quantity item * Build.quantity (self w))
                  (StockItem.quantity (Allocation.stock_item a).2)) as Hafter by lia.
  split; [done|]. split; [lia|].
  intros r Hr.
  assert (item ∈ bom_items (self w) (db w')) as Hitem'
    by (unfold bom_items in *; by rewrite Hbom).
  pose proof (getRequiredQuantity_of_line _ _ _ _ Hitem' Hr) as ->.
  split; [done|]. unfold getUnallocatedQuantity. rewrite Hr, Hafter.
  f_equal. lia.
Qed.

Lemma autoAllocate_line_witness :
  autoAllocate fresh_world = Return tt ready_world
  ∧ BomItem.mk 1 2 2 ∈ bom_items short_build (db fresh_world)
  ∧ getAllocatedQuantity short_build 2 (db ready_world) = Z.min (2 * 5) 7
  ∧ getUnallocatedQuantity short_build 2 (db ready_world) = inr (Z.max (10 - 7) 0).
Proof.
  assert (BomItem.mk 1 2 2 ∈ bom_items short_build (db fresh_world)) as Hline
    by (vm_compute; left).
  pose proof (autoAllocate_line fresh_world ready_world (BomItem.mk 1 2 2)
                (Allocation.mk (1%positive, seven_units) 7) eq_refl Hline eq_refl)
    as (Hmin & _ & Hrest).
  split; [reflexivity|]. split; [exact Hline|]. split; [exact Hmin|].
  exact (proj2 (Hrest 10 eq_refl)).
Defined.

(** ** Proposals and the other builds *)

(** X9: the proposals of a build depend on the ledger only through the
    records of that build: two ledgers that hold the same records of the
    build give the same proposals, so what other builds have allocated
    on a stock item is not taken off what is proposed. *)
Theorem getAutoAllocations_other_builds b s (m : gmap positive BuildItem.t) :
  (∀ k i, BuildItem.build i = Build.id b →
          (m !! k = Some i ↔ build_items s !! k = Some i)) →
  getAutoAllocations b (set_build_items m s) = getAutoAllocations b s.
Proof.
  intros Hsame. unfold getAutoAllocations.
  change (bom_items b (set_build_items m s)) with (bom_items b s).
  assert (∀ sk, build_items_filter b sk (set_build_items m s) = []
                ↔ build_items_filter b sk s = []) as Hnil.
  { intros sk. unfold build_items_filter. rewrite !filter_nil_Forall.
    unfold objects_all. simpl.
    split; intros Hall [k i] Hin [Hb Hsk]; simpl in *;
      apply elem_of_map_to_list in Hin;
      apply (Hall (k, i)); try done; apply elem_of_map_to_list;
      by apply (Hsame k i Hb). }
  assert (∀ item, auto_allocation b (set_build_items m s) item
                  = auto_allocation b s item) as Hpt;
    [|induction (bom_items b s) as [|item l IH]; [done|];
      cbn [omap list_omap] in *; by rewrite Hpt, IH].
  intros item. unfold auto_allocation.
  change (stock_filter_part (BomItem.sub_part item) (set_build_items m s))
    with (stock_filter_part (BomItem.sub_part item) s).
  destruct (stock_filter_part (BomItem.sub_part item) s) as [|st [|]]; [done| |done].
  specialize (Hnil st.1).
  destruct (build_items_filter b st.1 (set_build_items m s)) as [|x lx],
           (build_items_filter b st.1 s) as [|y ly]; try done.
  - by destruct (proj1 Hnil eq_refl).
  - by destruct (proj2 Hnil eq_refl).
Qed.

Lemma getAutoAllocations_other_builds_witness :
  allocated_on short_build 1 shared_store = 7
  ∧ Allocation.quantity <$> getAutoAllocations second_build shared_store = [6]
  ∧ getAutoAllocations second_build (set_build_items ∅ shared_store)
    = getAutoAllocations second_build shared_store.
Proof.
  split; [reflexivity|]. split; [reflexivity|].
  apply (getAutoAllocations_other_builds second_build shared_store ∅).
  intros k i Hb. split.
  - intros Hk. by rewrite lookup_empty in Hk.
  - intros Hk. simpl in Hk. apply lookup_singleton_Some in Hk as [_ <-]. done.
Defined.

(** ** required_parts and the quantity queries *)

Lemma filter_NoDup_fmap_singleton {A B} `{EqDecision B} (f : A → B) (l : list A) x :
  NoDup (f <$> l) → x ∈ l → filter (λ y, f y = f x) l = [x].
Proof.
  induction l as [|y l IH]; intros Hnodup Hin; [by apply elem_of_nil in Hin|].
  rewrite fmap_cons in Hnodup. apply NoDup_cons in Hnodup as [Hhead Hnodup].
  rewrite filter_cons. apply elem_of_cons in Hin as [->|Hin].
  - rewrite decide_True by done. f_equal.
    apply filter_nil_Forall. intros z Hz Heq. apply Hhead.
    apply list_elem_of_fmap. by exists z.
  - rewrite decide_False; [by apply IH|].
    intros Heq. apply Hhead. apply list_elem_of_fmap. by exists x.
Qed.

(** X10: when the BOM lines of the target part have different sub-parts,
    [required_parts] and the quantity queries agree: for every entry,
    [getRequiredQuantity] of its part returns its quantity (per-build
    quantity times build quantity), its allocated field is
    [getAllocatedQuantity], and [getUnallocatedQuantity] returns
    max(quantity - allocated, 0); there is one entry per BOM line. *)
Theorem required_parts_agree b s :
  NoDup (BomItem.sub_part <$> bom_items b s) →
  length (required_parts b s) = length (bom_items b s)
  ∧ ∀ rp, rp ∈ required_parts b s →
      RequiredPart.quantity rp = RequiredPart.per_build rp * Build.quantity b
      ∧ getRequiredQuantity b (RequiredPart.part rp) s = inr (RequiredPart.quantity rp)
      ∧ getAllocatedQuantity b (RequiredPart.part rp) s = RequiredPart.allocated rp
      ∧ getUnallocatedQuantity b (RequiredPart.part rp) s
        = inr (Z.max (RequiredPart.quantity rp - RequiredPart.allocated rp) 0).
Proof.
  intros Hnodup. unfold required_parts. split; [by rewrite length_fmap|].
  intros rp Hin. apply list_elem_of_fmap in Hin as (item & -> & Hitem). simpl.
  assert (getRequiredQuantity b (BomItem.sub_part item) s
          = inr (BomItem.quantity item * Build.quantity b)) as Hreq.
  { unfold getRequiredQuantity, BomItem_get.
    assert (filter (λ l, BomItem.part l = Build.part b
                         ∧ BomItem.sub_part l = BomItem.sub_part item) (bom s)
            = filter (λ l, BomItem.sub_part l = BomItem.sub_part item) (bom_items b s))
      as ->.
    { unfold bom_items. rewrite list_filter_filter. apply list_filter_iff.
      intros l. tauto. }
    by rewrite (filter_NoDup_fmap_singleton BomItem.sub_part _ item Hnodup Hitem). }
  split_and!; try done.
  unfold getUnallocatedQuantity. by rewrite Hreq.
Qed.

Lemma required_parts_agree_witness :
  NoDup (BomItem.sub_part <$> bom_items short_build (db ready_world))
  ∧ required_parts short_build (db ready_world) = [RequiredPart.mk 2 2 10 7]
  ∧ getUnallocatedQuantity short_build 2 (db ready_world) = inr (Z.max (10 - 7) 0).
Proof.
  assert (NoDup (BomItem.sub_part <$> bom_items short_build (db ready_world)))
    as Hlines by (vm_compute; apply NoDup_singleton).
  split; [exact Hlines|]. split; [reflexivity|].
  exact (proj2 (proj2 (proj2
           (proj2 (required_parts_agree short_build (db ready_world) Hlines)
              (RequiredPart.mk 2 2 10 7) (list_elem_of_here _ _))))).
Defined.


(** ** Complete, for any consuming operation *)

Lemma complete_item_Return_any `{!Collaborators} user ki w w1 :
  complete_item user ki w = Return tt w1 →
  ∃ st st', stock (db w) !! BuildItem.stock_item ki.2 = Some st
    ∧ w1 = mkWorld (self w)
             (mkStore (builds (db w))
                (delete ki.1 (build_items (db w)))
                (<[BuildItem.stock_item ki.2 := st']> (stock (db w)))
                (bom (db w))).
Proof.
  unfold complete_item, bind, get_self, related_stock_item.
  destruct (stock (db w) !! BuildItem.stock_item ki.2) as [st|]; [|done].
  destruct (take_stock _ _ _ _) as [e|st']; [done|].
  unfold build_item_delete, modify_db. intros [= <-]. by exists st, st'.
Qed.

Lemma complete_loop_Return_any `{!Collaborators} user l : ∀ w w',
  for_each l (complete_item user) w = Return tt w' →
  self w' = self w
  ∧ builds (db w') = builds (db w)
  ∧ bom (db w') = bom (db w)
  ∧ build_items (db w') = foldl (λ m ki, delete ki.1 m) (build_items (db w)) l
  ∧ dom (stock (db w')) = dom (stock (db w))
  ∧ (∀ sk, sk ∉ stock_keys l → stock (db w') !! sk = stock (db w) !! sk)
  ∧ (∀ sk, sk ∈ stock_keys l → is_Some (stock (db w) !! sk)).
Proof.
  induction l as [|ki l IH]; intros w w'.
  - intros [= <-]. split_and!; try done. intros sk Hin. by apply elem_of_nil in Hin.
  - rewrite for_each_cons.
    destruct (complete_item user ki w) as [[] w1|e w1] eqn:Hstep; [|done].
    apply complete_item_Return_any in Hstep as (st & st' & Hst & ->).
    intros Hrest. apply IH in Hrest as (Hself & Hb & Hbom & Hitems & Hdom & Hout & Hin).
    change (stock_keys (ki :: l)) with (BuildItem.stock_item ki.2 :: stock_keys l).
    cbn [self db builds bom build_items stock foldl] in *.
    split_and!; try done.
    + rewrite Hdom. by apply dom_insert_lookup_L.
    + intros sk Hsk. apply not_elem_of_cons in Hsk as [Hne Hsk].
      rewrite (Hout sk Hsk). by apply lookup_insert_ne.
    + intros sk Hsk. apply elem_of_cons in Hsk as [->|Hsk]; [by eexists|].
      specialize (Hin sk Hsk). apply lookup_insert_is_Some in Hin as [<-|[_ ?]]; [|done].
      by eexists.
Qed.

Lemma complete_item_Return_call `{!Collaborators} user ki w w1 :
  complete_item user ki w = Return tt w1 →
  ∃ st st', stock (db w) !! BuildItem.stock_item ki.2 = Some st
    ∧ take_stock st (BuildItem.quantity ki.2) user
        ("Removed " +:+ pretty (BuildItem.quantity ki.2)
         +:+ " items to build " +:+ pretty (Build.quantity (self w))
         +:+ " x " +:+ part_name (Build.part (self w))) = inr st'
    ∧ w1 = mkWorld (self w)
             (mkStore (builds (db w))
                (delete ki.1 (build_items (db w)))
                (<[BuildItem.stock_item ki.2 := st']> (stock (db w)))
                (bom (db w))).
Proof.
  unfold complete_item, bind, get_self, related_stock_item.
  destruct (stock (db w) !! BuildItem.stock_item ki.2) as [st|]; [|done].
  destruct (take_stock _ _ _ _) as [e|st'] eqn:Htake; [done|].
  unfold build_item_delete, modify_db. intros [= <-]. by exists st, st'.
Qed.

(** When the records are on different stock items, each stock item a
    record is on ends as what [take_stock] made of it, called with the
    quantity of the record, the acting user and the text of the
    removal. *)
Lemma complete_loop_calls `{!Collaborators} user l : ∀ w w',
  for_each l (complete_item user) w = Return tt w' →
  NoDup (stock_keys l) →
  ∀ ki, ki ∈ l →
    ∃ st st', stock (db w) !! BuildItem.stock_item ki.2 = Some st
      ∧ take_stock st (BuildItem.quantity ki.2) user
          ("Removed " +:+ pretty (BuildItem.quantity ki.2)
           +:+ " items to build " +:+ pretty (Build.quantity (self w))
           +:+ " x " +:+ part_name (Build.part (self w))) = inr st'
      ∧ stock (db w') !! BuildItem.stock_item ki.2 = Some st'.
Proof.
  induction l as [|ki0 l IH]; intros w w' Hrun Hnodup ki Hin;
    [by apply elem_of_nil in Hin|].
  change (stock_keys (ki0 :: l)) with (BuildItem.stock_item ki0.2 :: stock_keys l)
    in Hnodup.
  apply NoDup_cons in Hnodup as [Hhead Hnodup].
  rewrite for_each_cons in Hrun.
  destruct (complete_item user ki0 w) as [[] w1|e w1] eqn:Hstep; [|done].
  apply complete_item_Return_call in Hstep as (st & st' & Hst & Htake & ->).
  apply elem_of_cons in Hin as [->|Hin].
  - exists st, st'. split; [done|]. split; [done|].
    apply complete_loop_Return_any in Hrun as (_ & _ & _ & _ & _ & Hout & _).
    rewrite (Hout _ Hhead). apply lookup_insert_eq.
  - destruct (IH _ _ Hrun Hnodup ki Hin) as (st1 & st1' & Hst1 & Htake1 & Hend).
    cbn [self db stock] in *.
    exists st1, st1'. split; [|done].
    rewrite lookup_insert_ne in Hst1; [done|].
    intros Heq. apply Hhead. apply list_elem_of_fmap. by exists ki.
Qed.

(** X11: what a committed Complete does to the stock table, for every
    consuming operation of the interface (one that raises or hands back
    the new state of the stock item it is called on).  Every stock item a
    record of the build is on existed; when the records are on different
    stock items, each of them is replaced by what [take_stock] hands back
    for the quantity of its record, the acting user and the text
    "Removed n items to build m x part"; every stock item the build has no
    record on is as it was; the table has its old keys and one new key,
    which holds the built item; the records of other builds and the BOM
    are kept. *)
Theorem completeBuild_frame `{!Collaborators} location user now w w' :
  completeBuild location user now w = Return tt w' →
  (∀ sk, is_Some (stock (db w) !! sk) →
         sk ∉ stock_keys (allocated_stock (self w) (db w)) →
         stock (db w') !! sk = stock (db w) !! sk)
  ∧ (∀ sk, sk ∈ stock_keys (allocated_stock (self w) (db w)) →
           is_Some (stock (db w) !! sk))
  ∧ (∃ k, stock (db w) !! k = None
          ∧ stock (db w') !! k = Some (built_item (self w) location now)
          ∧ dom (stock (db w')) = {[k]} ∪ dom (stock (db w)))
  ∧ (∀ k i, BuildItem.build i ≠ Build.id (self w) →
            (build_items (db w') !! k = Some i ↔ build_items (db w) !! k = Some i))
  ∧ bom (db w') = bom (db w)
  ∧ (NoDup (stock_keys (allocated_stock (self w) (db w))) →
     ∀ ki, ki ∈ allocated_stock (self w) (db w) →
       ∃ st st', stock (db w) !! BuildItem.stock_item ki.2 = Some st
         ∧ take_stock st (BuildItem.quantity ki.2) user
             ("Removed " +:+ pretty (BuildItem.quantity ki.2)
              +:+ " items to build " +:+ pretty (Build.quantity (self w))
              +:+ " x " +:+ part_name (Build.part (self w))) = inr st'
         ∧ stock (db w') !! BuildItem.stock_item ki.2 = Some st').
Proof.
  rewrite completeBuild_unfold.
  destruct (for_each _ _ w) as [[] w1|e w1] eqn:Hloop; [|done].
  intros [= <-].
  pose proof (complete_loop_calls user _ _ _ Hloop) as Hcalls.
  apply complete_loop_Return_any in Hloop
    as (Hself & Hb & Hbom & Hitems & Hdom & Hout & Hin).
  rewrite delete_allocated_stock in Hitems.
  assert (stock (db w) !! fresh (dom (stock (db w1))) = None) as Hfresh.
  { rewrite Hdom. apply fresh_stock_key. }
  unfold completed; simpl. rewrite Hself. split_and!; try done.
  - intros sk Hsk Hnot. rewrite lookup_insert_ne; [by apply Hout|].
    intros <-. rewrite Hfresh in Hsk. by destruct Hsk.
  - exists (fresh (dom (stock (db w1)))). split; [done|].
    split; [apply lookup_insert_eq|]. by rewrite dom_insert_L, Hdom.
  - intros k i Hne. rewrite Hitems, without_build_lookup. tauto.
  - intros Hnodup ki Hki.
    destruct (Hcalls Hnodup ki Hki) as (st & st' & Hst & Htake & Hend).
    exists st, st'. split; [done|]. split; [done|].
    rewrite lookup_insert_ne; [done|]. intros Heq. rewrite <- Heq in Hst. congruence.
Qed.

Lemma completeBuild_frame_witness :
  stock_keys (allocated_stock (self spare_world) (db spare_world)) = [1%positive]
  ∧ completeBuild (H := spec_collaborators) (Some 4%positive) 3 "2019-05-02" spare_world
    = Return tt spare_world_completed
  ∧ stock (db spare_world_completed) !! 2%positive = stock (db spare_world) !! 2%positive
  ∧ ∃ st st', stock (db spare_world) !! 1%positive = Some st
      ∧ spec_take_stock st 7 3 "Removed 7 items to build 5 x part 1" = inr st'
      ∧ stock (db spare_world_completed) !! 1%positive = Some st'.
Proof.
  pose proof (completeBuild_frame (H := spec_collaborators) (Some 4%positive) 3%positive
                "2019-05-02" spare_world spare_world_completed eq_refl)
    as (Hframe & _ & _ & _ & _ & Hcalls).
  split; [reflexivity|]. split; [reflexivity|]. split.
  - apply Hframe; [by eexists|].
    intros Hin. vm_compute in Hin. by apply list_elem_of_singleton in Hin.
  - apply (Hcalls (NoDup_singleton _) (1%positive, BuildItem.mk 1 1 7)).
    vm_compute. left.
Defined.

(** X12: Complete has no guard on the status: on a build it has already
    completed it commits again, finds no record to consume, and adds one
    more built item under a new key, so the output of the build is in
    stock twice. *)
Theorem completeBuild_twice `{!Collaborators}
    location user now location' user' now' w w1 :
  completeBuild location user now w = Return tt w1 →
  ∃ w2 k,
    completeBuild location' user' now' w1 = Return tt w2
    ∧ stock (db w1) !! k = None
    ∧ stock (db w2) = <[k := built_item (self w) location' now']> (stock (db w1))
    ∧ StockItem.quantity (built_item (self w) location' now') = Build.quantity (self w)
    ∧ Build.status (self w1) = COMPLETE
    ∧ Build.status (self w2) = COMPLETE
    ∧ Build.completion_date (self w2) = Some now'
    ∧ Build.completed_by (self w2) = Some user'.
Proof.
  rewrite completeBuild_unfold.
  destruct (for_each _ _ w) as [[] w0|e w0] eqn:Hloop; [|done].
  intros [= <-].
  apply complete_loop_Return_any in Hloop as (Hself & _ & _ & Hitems & _).
  rewrite delete_allocated_stock in Hitems.
  assert (allocated_stock (self (completed location user now w0))
            (db (completed location user now w0)) = []) as Hnone.
  { eapply allocated_stock_without_build. simpl. rewrite Hitems.
    unfold without_build. simpl. by rewrite Hself. }
  rewrite completeBuild_unfold, Hnone. simpl.
  eexists _, (fresh (dom (stock (db (completed location user now w0))))).
  split; [done|]. split; [apply fresh_stock_key|].
  unfold completed; simpl. by rewrite Hself.
Qed.

Lemma completeBuild_twice_witness :
  completeBuild (H := spec_collaborators) (Some 4%positive) 3 "2019-05-02" ready_world
  = Return tt ready_world_completed
  ∧ ∃ w2 k,
    completeBuild (H := spec_collaborators) None 8 "2019-06-30" ready_world_completed
    = Return tt w2
    ∧ stock (db ready_world_completed) !! k = None
    ∧ stock (db w2)
      = <[k := built_item short_build None "2019-06-30"]> (stock (db ready_world_completed))
    ∧ StockItem.quantity (built_item short_build None "2019-06-30") = 5
    ∧ Build.status (self ready_world_completed) = COMPLETE
    ∧ Build.status (self w2) = COMPLETE
    ∧ Build.completion_date (self w2) = Some "2019-06-30"
    ∧ Build.completed_by (self w2) = Some 8%positive.
Proof.
  split; [reflexivity|].
  exact (completeBuild_twice (H := spec_collaborators) (Some 4%positive) 3%positive
           "2019-05-02" None 8%positive "2019-06-30"
           ready_world ready_world_completed eq_refl).
Defined.

(** ** Histories: what no operation changes *)

Lemma run_step_order `{!Collaborators} op w :
  same_order w (world_after (run op w)).
Proof.
  unfold same_order. destruct op as [user now|location user now| |]; simpl.
  - rewrite cancelBuild_unfold. by simpl.
  - rewrite completeBuild_unfold.
    pose proof (complete_loop_self user (allocated_stock (self w) (db w)) w) as Hself.
    destruct (for_each _ _ w) as [[] w1|e w1] eqn:Hloop; simpl in *.
    + apply complete_loop_Return_any in Hloop as (_ & _ & Hbom & _).
      by rewrite Hself, Hbom.
    + by rewrite Hself.
  - done.
  - destruct (autoAllocate w) as [[] w'|e w'] eqn:Hrun; simpl.
    + rewrite autoAllocate_unfold in Hrun.
      destruct (apply_allocations _ _ w) as [[] w1|e w1] eqn:Happly; [|done].
      injection Hrun as <-.
      apply apply_allocations_Return in Happly as (Hself & _ & _ & Hbom & _).
      by rewrite Hself, Hbom.
    + by apply autoAllocate_Raise_inv in Hrun as [_ ->].
Qed.

Lemma run_step_stock `{!Collaborators} op w :
  ¬ is_complete_op op → stock (db (world_after (run op w))) = stock (db w).
Proof.
  destruct op as [user now|location user now| |]; simpl; intros Hop.
  - by rewrite cancelBuild_unfold.
  - by destruct Hop.
  - done.
  - destruct (autoAllocate w) as [[] w'|e w'] eqn:Hrun; simpl.
    + rewrite autoAllocate_unfold in Hrun.
      destruct (apply_allocations _ _ w) as [[] w1|e w1] eqn:Happly; [|done].
      injection Hrun as <-.
      by apply apply_allocations_Return in Happly as (_ & _ & Hst & _).
    + by apply autoAllocate_Raise_inv in Hrun as [_ ->].
Qed.

Lemma can_build_same b b' s s' :
  Build.part b' = Build.part b → Build.quantity b' = Build.quantity b →
  stock s' = stock s → bom s' = bom s →
  can_build b' s' = can_build b s.
Proof.
  intros Hpart Hq Hst Hbom. apply eq_true_iff_eq.
  unfold can_build, required_parts. rewrite !can_build_loop_true.
  unfold bom_items, total_stock, stock_filter_part. by rewrite Hpart, Hq, Hst, Hbom.
Qed.

(** X13: over any history of operations the order itself is never
    rewritten (the key, part, title, quantity, batch, URL and notes of the
    build) nor is the BOM; and a history without a Complete leaves the
    stock table as it was, hence also the total stock of every part and
    [can_build]: cancelling, unallocating and auto-allocating never touch
    stock. *)
Theorem history_frame `{!Collaborators} ops w :
  same_order w (run_ops ops w)
  ∧ ((∀ op, op ∈ ops → ¬ is_complete_op op) →
     stock (db (run_ops ops w)) = stock (db w)
     ∧ (∀ p, total_stock p (db (run_ops ops w)) = total_stock p (db w))
     ∧ can_build (self (run_ops ops w)) (db (run_ops ops w))
       = can_build (self w) (db w)).
Proof.
  assert (same_order w (run_ops ops w)) as Horder.
  { revert w. induction ops as [|op ops IH]; intros w.
    - unfold same_order. by simpl.
    - change (run_ops (op :: ops) w) with (run_ops ops (world_after (run op w))).
      pose proof (run_step_order op w) as H1.
      pose proof (IH (world_after (run op w))) as H2.
      unfold same_order in *. destruct_and!. split_and!; congruence. }
  split; [done|]. intros Hops.
  assert (stock (db (run_ops ops w)) = stock (db w)) as Hstock.
  { clear Horder. revert w. induction ops as [|op ops IH]; intros w; [done|].
    change (run_ops (op :: ops) w) with (run_ops ops (world_after (run op w))).
    rewrite IH by (intros op' Hin; apply Hops; by right).
    apply run_step_stock, Hops. left. }
  unfold same_order in Horder. destruct_and!.
  split; [done|]. split.
  - intros p. unfold total_stock, stock_filter_part. by rewrite Hstock.
  - by apply can_build_same.
Qed.

Lemma history_frame_witness :
  (∀ op, op ∈ [AutoAllocate; Cancel 8 "2019-06-30"; Unallocate] → ¬ is_complete_op op)
  ∧ stock (db (run_ops (H := spec_collaborators)
                 [AutoAllocate; Cancel 8 "2019-06-30"; Unallocate] fresh_world))
    = stock (db fresh_world).
Proof.
  assert (∀ op, op ∈ [AutoAllocate; Cancel 8 "2019-06-30"; Unallocate] →
            ¬ is_complete_op op) as Hops.
  { intros op Hin Hop. repeat (apply elem_of_cons in Hin as [->|Hin]; [by simpl in Hop|]).
    by apply elem_of_nil in Hin. }
  split; [exact Hops|].
  exact (proj1 (proj2 (history_frame (H := spec_collaborators)
                         [AutoAllocate; Cancel 8 "2019-06-30"; Unallocate] fresh_world)
                 Hops)).
Defined.

(** ** The status over histories *)

(** X14: over any history the status either stays what it was or is
    CANCELLED or COMPLETE: no operation sets PENDING or ALLOCATED, so a
    build that is not active never becomes active again and ALLOCATED is
    never produced; a status of [BUILD_STATUS_CODES] stays one; a build is
    never active and complete at once; after a Cancel it is neither, and
    after a committed Complete it is complete and not active. *)
Theorem status_history `{!Collaborators} ops w :
  (Build.status (self (run_ops ops w)) = Build.status (self w)
   ∨ terminal (self (run_ops ops w)))
  ∧ (is_active (self (run_ops ops w)) = true → is_active (self w) = true)
  ∧ (Build.status (self (run_ops ops w)) = ALLOCATED → Build.status (self w) = ALLOCATED)
  ∧ (Build.status (self w) ∈ BUILD_STATUS_CODES.*1 →
     Build.status (self (run_ops ops w)) ∈ BUILD_STATUS_CODES.*1)
  ∧ (is_active (self w) && is_complete (self w) = false)
  ∧ (∀ user now,
       is_active (self (world_after (cancelBuild user now w))) = false
       ∧ is_complete (self (world_after (cancelBuild user now w))) = false)
  ∧ (∀ location user now w',
       completeBuild location user now w = Return tt w' →
       is_active (self w') = false ∧ is_complete (self w') = true).
Proof.
  assert (Build.status (self (run_ops ops w)) = Build.status (self w)
          ∨ terminal (self (run_ops ops w))) as Hcases.
  { destruct (run_ops_cases ops w) as [->|(_ & Hterm & _)]; [by left|by right]. }
  split; [done|]. unfold is_active, is_complete, terminal in *. split_and!.
  - intros Hact. apply bool_decide_eq_true in Hact. apply bool_decide_eq_true.
    apply list_elem_of_singleton in Hact. apply list_elem_of_singleton.
    destruct Hcases as [<-|[Hc|Hc]]; [done|by rewrite Hc in Hact..].
  - intros Hst. destruct Hcases as [<-|[Hc|Hc]]; [done|by rewrite Hc in Hst..].
  - intros Hin. destruct Hcases as [->|[->| ->]]; [done|..].
    + do 2 right. left.
    + do 3 right. left.
  - destruct (bool_decide (Build.status (self w) ∈ [PENDING])) eqn:Hact; [|done].
    apply bool_decide_eq_true, list_elem_of_singleton in Hact.
    simpl. apply bool_decide_eq_false. by rewrite Hact.
  - intros user now. rewrite cancelBuild_unfold. simpl. by split.
  - intros location user now w'. rewrite completeBuild_unfold.
    destruct (for_each _ _ w) as [[] w1|e w1]; [|done]. intros [= <-]. by split.
Qed.

Lemma status_history_witness :
  is_active (self fresh_world) = true
  ∧ is_active (self (run_ops (H := spec_collaborators)
                       [AutoAllocate; Complete None 3 "2019-05-02"; Unallocate]
                       fresh_world)) = false
  ∧ is_complete (self ready_world_completed) = true.
Proof.
  split; [reflexivity|]. split; [reflexivity|].
  pose proof (status_history (H := spec_collaborators) [] ready_world)
    as (_ & _ & _ & _ & _ & _ & Hcomplete).
  exact (proj2 (Hcomplete (Some 4%positive) 3%positive "2019-05-02"
                  ready_world_completed eq_refl)).
Defined.

(** ** When Complete commits *)





(** ** URLs *)

Lemma string_length_app (s t : string) :
  String.length (s +:+ t) = (String.length s + String.length t)%nat.
Proof. induction s as [|c s IH]; simpl; [done|]. by rewrite IH. Qed.

Lemma string_app_inj_r (s1 s2 t : string) : s1 +:+ t = s2 +:+ t → s1 = s2.
Proof.
  revert s2. induction s1 as [|c1 s1 IH]; intros [|c2 s2] Heq; [done|..].
  - apply (f_equal String.length) in Heq.
    rewrite !string_length_app in Heq. simpl in Heq. lia.
  - apply (f_equal String.length) in Heq.
    rewrite !string_length_app in Heq. simpl in Heq. lia.
  - cbn [String.append] in Heq. injection Heq as -> Heq. f_equal. by apply IH.
Qed.

(** X16: [BuildItem.get_absolute_url] tells allocation records apart:
    two records have the same URL only if they have the same key. *)
Theorem BuildItem_get_absolute_url_inj pk1 pk2 :
  BuildItem_get_absolute_url pk1 = BuildItem_get_absolute_url pk2 → pk1 = pk2.
Proof.
  unfold BuildItem_get_absolute_url. intros Heq.
  apply (inj (String.app "/build/item/")) in Heq.
  apply string_app_inj_r in Heq. by apply (inj pretty) in Heq.
Qed.

Lemma BuildItem_get_absolute_url_inj_witness :
  BuildItem_get_absolute_url 12 = "/build/item/12/"
  ∧ (12 = 12)%positive.
Proof.
  split; [reflexivity|].
  exact (BuildItem_get_absolute_url_inj 12 12 eq_refl).
Defined.

(** ** Complete and the total stock of a part *)

Lemma total_stock_insert_None p s k st :
  stock s !! k = None →
  total_stock p (set_stock (<[k := st]> (stock s)) s)
  = (if decide (StockItem.part st = p) then StockItem.quantity st else 0)
    + total_stock p s.
Proof.
  intros Hk. unfold total_stock, stock_filter_part, objects_all. simpl.
  erewrite sum_list_Z_perm;
    [|apply fmap_Permutation, filter_Permutation; by apply map_to_list_insert].
  rewrite filter_cons. simpl.
  destruct (decide _); [rewrite fmap_cons, sum_list_Z_cons|]; simpl; lia.
Qed.

Lemma total_stock_consumed p s k st q :
  stock s !! k = Some st →
  total_stock p (set_stock (<[k := consumed q st]> (stock s)) s)
  = total_stock p s - (if decide (StockItem.part st = p) then q else 0).
Proof.
  intros Hk.
  pose proof (total_stock_insert_None p (set_stock (delete k (stock s)) s) k
                (consumed q st) (lookup_delete_eq _ _)) as Hnew.
  pose proof (total_stock_insert_None p (set_stock (delete k (stock s)) s) k
                st (lookup_delete_eq _ _)) as Hold.
  unfold set_stock in *. simpl in *.
  rewrite insert_delete_eq in Hnew. rewrite insert_delete_id in Hold by done.
  assert (total_stock p (mkStore (builds s) (build_items s) (stock s) (bom s))
          = total_stock p s) as Heta by by destruct s.
  rewrite Heta in Hold. rewrite Hnew, Hold.
  destruct (decide (StockItem.part st = p)); lia.
Qed.

Lemma complete_loop_total_stock user p l : ∀ w w',
  for_each l (complete_item (H := spec_collaborators) user) w = Return tt w' →
  total_stock p (db w')
  = total_stock p (db w)
    - sum_list_Z ((λ ki, BuildItem.quantity ki.2)
                    <$> filter (λ ki, StockItem.part
                                        <$> stock (db w) !! BuildItem.stock_item ki.2
                                      = Some p) l).
Proof.
  induction l as [|ki l IH]; intros w w'.
  - intros [= <-]. simpl. lia.
  - rewrite for_each_cons.
    destruct (complete_item user ki w) as [[] w1|e w1] eqn:Hstep; [|done].
    apply complete_item_Return in Hstep as (st & Hst & Hq & ->).
    intros Hrest. rewrite (IH _ _ Hrest). cbn [db stock].
    pose proof (total_stock_consumed p (db w) (BuildItem.stock_item ki.2) st
                  (BuildItem.quantity ki.2) Hst) as Hstep.
    assert (∀ m, total_stock p
                   (mkStore (builds (db w)) m
                      (<[BuildItem.stock_item ki.2 := consumed (BuildItem.quantity ki.2) st]>
                         (stock (db w))) (bom (db w)))
                 = total_stock p
                     (set_stock
                        (<[BuildItem.stock_item ki.2 := consumed (BuildItem.quantity ki.2) st]>
                           (stock (db w))) (db w))) as Hledger by done.
    rewrite Hledger, Hstep.
    assert (filter (λ ki', StockItem.part
                             <$> <[BuildItem.stock_item ki.2
                                   := consumed (BuildItem.quantity ki.2) st]> (stock (db w))
                                 !! BuildItem.stock_item ki'.2 = Some p) l
            = filter (λ ki', StockItem.part
                               <$> stock (db w) !! BuildItem.stock_item ki'.2 = Some p) l)
      as ->.
    { apply list_filter_iff. intros ki'.
      destruct (decide (BuildItem.stock_item ki.2 = BuildItem.stock_item ki'.2))
        as [<-|Hne].
      - by rewrite lookup_insert_eq, Hst.
      - by rewrite lookup_insert_ne. }
    rewrite filter_cons, Hst. simpl.
    destruct (decide (StockItem.part st = p)) as [Hp|Hp].
    + rewrite decide_True by by rewrite Hp.
      rewrite fmap_cons, sum_list_Z_cons. simpl. lia.
    + rewrite decide_False by (intros [= ?]; done). lia.
Qed.

(** X17: with the consuming operation of the specification, a committed
    Complete changes the total stock of every part by what the ledger
    said: it goes down by the quantity the build had allocated of the
    part, and, for the target part, up by the quantity built. *)
Theorem completeBuild_total_stock location user now w w' p :
  completeBuild (H := spec_collaborators) location user now w = Return tt w' →
  total_stock p (db w')
  = total_stock p (db w) - getAllocatedQuantity (self w) p (db w)
    + (if decide (Build.part (self w) = p) then Build.quantity (self w) else 0).
Proof.
  rewrite completeBuild_unfold.
  destruct (for_each _ _ w) as [[] w1|e w1] eqn:Hloop; [|done].
  intros [= <-].
  pose proof (complete_loop_total_stock user p _ _ _ Hloop) as Htotal.
  apply complete_loop_Return in Hloop as (Hself & _).
  fold (allocated_to_part (self w) p (db w)) in Htotal.
  rewrite <- getAllocatedQuantity_sum in Htotal.
  unfold completed. cbn [db].
  pose proof (total_stock_insert_None p (db w1) (fresh (dom (stock (db w1))))
                (built_item (self w) location now) (fresh_stock_key _)) as Hnew.
  rewrite Hself.
  assert (∀ m st, total_stock p (set_builds m (set_stock st (db w1)))
                  = total_stock p (set_stock st (db w1))) as Hbuilds by done.
  rewrite Hbuilds.
  replace (built_item
             (Build.set_completed_by (Some user)
                (Build.set_completion_date (Some now) (self w))) location now)
    with (built_item (self w) location now) by done.
  rewrite Hnew, Htotal. simpl. lia.
Qed.

Lemma completeBuild_total_stock_witness :
  completeBuild (H := spec_collaborators) (Some 4%positive) 3 "2019-05-02" ready_world
  = Return tt ready_world_completed
  ∧ total_stock 2 (db ready_world) = 7
  ∧ total_stock 2 (db ready_world_completed) = 7 - 7 + 0
  ∧ total_stock 1 (db ready_world_completed) = 0 - 0 + 5.
Proof.
  split; [reflexivity|]. split; [reflexivity|]. split.
  - exact (completeBuild_total_stock (Some 4%positive) 3%positive "2019-05-02"
             ready_world ready_world_completed 2 eq_refl).
  - exact (completeBuild_total_stock (Some 4%positive) 3%positive "2019-05-02"
             ready_world ready_world_completed 1 eq_refl).
Defined.

